(** * Pconsole: scrollback buffer, viewport and command history

    A shallow embedding of the text-handling core of
    [pconsole/console.py] (class [Console]): the line wrapper and the
    two output modes of [_ConsoleOutput], the scroll entry point
    [_scroll], and the command-history navigation of [_callBack].

    Python values are modelled as follows: [int] is [Z], [str] is
    [string], a [list] is a [list] read and written through Python's
    indexing rules (negative indices count from the end, an index out
    of range raises [IndexError]); a method of [Console] is a function
    from the object's state to the new state and either a value or the
    exception raised.  A mutation made before an exception is raised is
    kept, as in Python. *)

From Stdlib Require Import ZArith String Ascii QArith.
From stdpp Require Import base list strings sorting.

Open Scope Z_scope.

(** ** Exceptions and results *)

(** [ValueError], [IndexError] and [ZeroDivisionError] are the built-in
    exceptions that the modelled code can raise.  [ConfigError] and
    [EmptyHistoryError] are the error kinds that the specification
    names; no statement of [console.py] raises them. *)
Inductive exn : Type :=
  | ValueError
  | IndexError
  | ZeroDivisionError
  | ConfigError
  | EmptyHistoryError.

Inductive result (A : Type) : Type :=
  | Ok (a : A)
  | Raise (e : exn).
Arguments Ok {A} a.
Arguments Raise {A} e.

#[global] Instance result_ret : MRet result := @Ok.
#[global] Instance result_bind : MBind result := λ A B f m,
  match m with
  | Ok a => f a
  | Raise e => Raise e
  end.

(** A list comprehension [[f x for x in l]]: elements are evaluated in
    order and the first exception aborts the comprehension. *)
Fixpoint comprehension {A B} (f : A → result B) (l : list A) : result (list B) :=
  match l with
  | [] => Ok []
  | x :: l' => y ← f x; ys ← comprehension f l'; Ok (y :: ys)
  end.

(** ** Python built-ins *)

Module Py.

(** Number of elements of [range(start, stop, step)] for [step ≠ 0]. *)
Definition range_len (start stop step : Z) : Z :=
  if 0 <? step then
    if start <? stop then (stop - start - 1) / step + 1 else 0
  else
    if stop <? start then (start - stop - 1) / (- step) + 1 else 0.

(** [range(start, stop, step)]; a zero step raises [ValueError]. *)
Definition range (start stop step : Z) : result (list Z) :=
  if step =? 0 then Raise ValueError
  else Ok (map (λ k : nat, start + Z.of_nat k * step)
               (seq 0 (Z.to_nat (range_len start stop step)))).

Definition len (x : string) : Z := Z.of_nat (String.length x).

(** A slice bound is taken from the end when negative and is clamped
    to [0 .. len]. *)
Definition slice_bound (n i : Z) : Z :=
  if i <? 0 then Z.max (i + n) 0 else Z.min i n.

(** [x[i:j]] on a string. *)
Definition slice (x : string) (i j : Z) : string :=
  let lo := slice_bound (len x) i in
  let hi := slice_bound (len x) j in
  substring (Z.to_nat lo) (Z.to_nat (hi - lo)) x.

(** [s.split(sep)] for a one-character separator. *)
Fixpoint split (sep : ascii) (s : string) : list string :=
  match s with
  | EmptyString => [EmptyString]
  | String c s' =>
      if Ascii.eqb c sep then EmptyString :: split sep s'
      else match split sep s' with
           | [] => [String c EmptyString]
           | h :: t => String c h :: t
           end
  end.

(** [''.join(l)]. *)
Definition join (l : list string) : string :=
  foldr String.append EmptyString l.

(** [s.count(c)] for a one-character [c]. *)
Fixpoint count (c : ascii) (s : string) : nat :=
  match s with
  | EmptyString => 0%nat
  | String a s' => ((if Ascii.eqb a c then 1 else 0) + count c s')%nat
  end.

(** Position designated by the index [i] in a sequence of [n]
    elements, when there is one. *)
Definition position (n : nat) (i : Z) : option nat :=
  let j := if i <? 0 then i + Z.of_nat n else i in
  if (0 <=? j) && (j <? Z.of_nat n) then Some (Z.to_nat j) else None.

(** [l[i]]. *)
Definition getitem {A} (l : list A) (i : Z) : result A :=
  match position (length l) i with
  | Some n => match l !! n with Some a => Ok a | None => Raise IndexError end
  | None => Raise IndexError
  end.

(** [l[i] = v]. *)
Definition setitem {A} (l : list A) (i : Z) (v : A) : result (list A) :=
  match position (length l) i with
  | Some n => Ok (<[n := v]> l)
  | None => Raise IndexError
  end.

End Py.

(** The values of [range(j, 0, -1)], from [j] down to 1. *)
Fixpoint countdown (j : nat) : list Z :=
  match j with
  | O => []
  | S j' => Z.of_nat (S j') :: countdown j'
  end.

(** The newline character, [keyword = "\n"] in [_ConsoleOutput]. *)
Definition keyword : ascii := "010"%char.

(** ** Line wrapper ([_ConsoleOutput], lines 249-252) *)

(** [[x[i:i+maxsize] for i in range(0, len(x), maxsize)]] *)
Definition discretize (maxsize : Z) (x : string) : result (list string) :=
  starts ← Py.range 0 (Py.len x) maxsize;
  Ok (map (λ i, Py.slice x i (i + maxsize)) starts).

(** The value of the comprehension when [range] accepts the step. *)
Definition chunks (maxsize : Z) (x : string) : list string :=
  map (λ i, Py.slice x i (i + maxsize))
      (map (λ k : nat, 0 + Z.of_nat k * maxsize)
           (seq 0 (Z.to_nat (Py.range_len 0 (Py.len x) maxsize)))).

(** [text = output.split(keyword)] followed by the chunking of every
    sub-string. *)
Definition wrap (output : string) (maxsize : Z) : result (list (list string)) :=
  comprehension (discretize maxsize) (Py.split keyword output).

(** ** State of a [Console] *)

(** A colour ([Vec4], or a 4-tuple of floats in some callers).  Colours
    are only stored and copied, never computed with. *)
Definition Vec4 : Type := (Q * Q * Q * Q)%type.

(** [Vec4(1, 1, 1, 1)], the default [color] of [_ConsoleOutput] and the
    [fg] given to every line in [create]. *)
Definition white : Vec4 := (1, 1, 1, 1)%Q.

(** The attributes of an [OnscreenLine] that [console.py] reads and
    writes: [textnode.text], [textnode.fg], [lineIndex] (created with
    [line=None]) and [charInterval] (a list [[first, last]]). *)
Record OnscreenLine : Type := {
  text : string;
  fg : Vec4;
  lineIndex : option Z;
  charInterval : list Z
}.

Definition set_text (v : string) (o : OnscreenLine) : OnscreenLine :=
  {| text := v; fg := fg o; lineIndex := lineIndex o; charInterval := charInterval o |}.
Definition set_fg (v : Vec4) (o : OnscreenLine) : OnscreenLine :=
  {| text := text o; fg := v; lineIndex := lineIndex o; charInterval := charInterval o |}.
Definition set_lineIndex (v : option Z) (o : OnscreenLine) : OnscreenLine :=
  {| text := text o; fg := fg o; lineIndex := v; charInterval := charInterval o |}.
Definition set_charInterval (v : list Z) (o : OnscreenLine) : OnscreenLine :=
  {| text := text o; fg := fg o; lineIndex := lineIndex o; charInterval := v |}.

(** The attributes of [Console] used by the modelled methods.  [entry]
    is the text held by the [DirectEntry] (what [enterText] sets) and
    [stdout] what has been written to [sys.__stdout__]. *)
Record Console : Type := {
  _maxsize : Z;
  _maxlines : Z;
  _savedlines : list (string * Vec4);
  _inputlines : list string;
  _visible_lines : list OnscreenLine;
  _callbackindex : Z;
  _scrollingindex : Z;
  entry : string;
  stdout : list string
}.

Definition set_savedlines (v : list (string * Vec4)) (s : Console) : Console :=
  {| _maxsize := _maxsize s; _maxlines := _maxlines s; _savedlines := v;
     _inputlines := _inputlines s; _visible_lines := _visible_lines s;
     _callbackindex := _callbackindex s; _scrollingindex := _scrollingindex s;
     entry := entry s; stdout := stdout s |}.
Definition set_visible_lines (v : list OnscreenLine) (s : Console) : Console :=
  {| _maxsize := _maxsize s; _maxlines := _maxlines s; _savedlines := _savedlines s;
     _inputlines := _inputlines s; _visible_lines := v;
     _callbackindex := _callbackindex s; _scrollingindex := _scrollingindex s;
     entry := entry s; stdout := stdout s |}.
Definition set_callbackindex (v : Z) (s : Console) : Console :=
  {| _maxsize := _maxsize s; _maxlines := _maxlines s; _savedlines := _savedlines s;
     _inputlines := _inputlines s; _visible_lines := _visible_lines s;
     _callbackindex := v; _scrollingindex := _scrollingindex s;
     entry := entry s; stdout := stdout s |}.
Definition set_scrollingindex (v : Z) (s : Console) : Console :=
  {| _maxsize := _maxsize s; _maxlines := _maxlines s; _savedlines := _savedlines s;
     _inputlines := _inputlines s; _visible_lines := _visible_lines s;
     _callbackindex := _callbackindex s; _scrollingindex := v;
     entry := entry s; stdout := stdout s |}.
Definition set_entry (v : string) (s : Console) : Console :=
  {| _maxsize := _maxsize s; _maxlines := _maxlines s; _savedlines := _savedlines s;
     _inputlines := _inputlines s; _visible_lines := _visible_lines s;
     _callbackindex := _callbackindex s; _scrollingindex := _scrollingindex s;
     entry := v; stdout := stdout s |}.
Definition set_stdout (v : list string) (s : Console) : Console :=
  {| _maxsize := _maxsize s; _maxlines := _maxlines s; _savedlines := _savedlines s;
     _inputlines := _inputlines s; _visible_lines := _visible_lines s;
     _callbackindex := _callbackindex s; _scrollingindex := _scrollingindex s;
     entry := entry s; stdout := v |}.

(** ** Methods: state passing with exceptions *)

Definition method (A : Type) : Type := Console → Console * result A.

#[global] Instance method_ret : MRet method := λ A a self, (self, Ok a).
#[global] Instance method_bind : MBind method := λ A B f m self,
  match m self with
  | (self', Ok a) => f a self'
  | (self', Raise e) => (self', Raise e)
  end.

(** Read an attribute of [self]. *)
Definition attr {A} (f : Console → A) : method A := λ self, (self, Ok (f self)).
(** Update [self]. *)
Definition update (f : Console → Console) : method unit := λ self, (f self, Ok ()).
(** Evaluate an expression that may raise. *)
Definition eval {A} (r : result A) : method A := λ self, (self, r).

(** [for x in l: body]. *)
Fixpoint for_ {A} (l : list A) (body : A → method unit) : method unit :=
  match l with
  | [] => mret ()
  | x :: l' => body x;; for_ l' body
  end.

(** [try: body except: pass]. *)
Definition try_pass (body : method unit) : method unit := λ self,
  (fst (body self), Ok ()).

(** The method [m] leaves the attribute [π] as it found it, whether it
    returns or raises. *)
Definition keeps {X A} (π : Console → X) (m : method A) : Prop :=
  ∀ self, π (m self).1 = π self.

(** [self._visible_lines[x].<attribute>] *)
Definition read_line {A} (x : Z) (f : OnscreenLine → A) : method A :=
  lines ← attr _visible_lines;
  o ← eval (Py.getitem lines x);
  mret (f o).

(** [self._visible_lines[x].<attribute> = v], where [set v] is the
    update of that attribute. *)
Definition write_line (x : Z) (set : OnscreenLine → OnscreenLine) : method unit :=
  lines ← attr _visible_lines;
  o ← eval (Py.getitem lines x);
  lines' ← eval (Py.setitem lines x (set o));
  update (set_visible_lines lines').

(** ** Redistribution and scrolling ([pconsole/lines.py]) *)

(** Modelled from the spec: the tagging of segments belongs to the
    missing [pconsole/lines.py].  Section 4.2: the offsets are
    cumulative, segment [i] of an entry starts after all the characters
    of the segments before it and ends [len(segment) - 1] further; the
    slot also carries the colour and the index of the entry (section
    3).  This is also what lines 262-270 of [console.py] write into
    slot 0. *)
Definition segment_line (color : Vec4) (index : Z) (segs : list string) (i : nat)
    (seg : string) : OnscreenLine :=
  let previous := Py.join (take i segs) in
  {| text := seg; fg := color; lineIndex := Some index;
     charInterval := [Py.len previous; Py.len previous + Py.len seg - 1] |}.

(** Modelled from the spec: the Line Wrapper of section 4.1, which the
    missing [redistribute] and [displace] run again (section 4.3).  The
    text is split on the newline, empty lines preserved, and every
    sub-string is cut into chunks of at most [maxWidth] characters, in
    order; a sub-string shorter than [maxWidth] yields exactly one
    chunk, which may be empty, so the empty sub-string gives the one
    chunk [""]; a [maxWidth] that is not positive is a [ConfigError].
    For a sub-string that is not empty the chunks are those of
    [chunks], the comprehension of lines 251-252. *)
Definition line_wrapper (text : string) (maxWidth : Z) : result (list (list string)) :=
  if maxWidth <=? 0 then Raise ConfigError
  else Ok (map (λ x, if Py.len x =? 0 then [""] else chunks maxWidth x)
               (Py.split keyword text)).

(** Modelled from the spec: the lines of one saved entry, for the
    missing [redistribute] and [displace].  Section 4.3: the Line
    Wrapper of section 4.1 is run again over the text of the entry, and
    the segments of all its sub-strings are numbered in order. *)
Definition entry_lines (maxsize : Z) (index : nat) (saved : string * Vec4)
    : result (list OnscreenLine) :=
  groups ← line_wrapper saved.1 maxsize;
  let segs := concat groups in
  Ok (imap (segment_line saved.2 (Z.of_nat index) segs) segs).

(** Modelled from the spec: the lines of every saved entry from
    position [index] on, oldest first, for the missing [redistribute]
    and [displace] (section 4.3: the Line Wrapper is run over every
    entry of the history). *)
Fixpoint history_lines (maxsize : Z) (index : nat) (savedlines : list (string * Vec4))
    : result (list OnscreenLine) :=
  match savedlines with
  | [] => Ok []
  | saved :: rest =>
      ls ← entry_lines maxsize index saved;
      ls' ← history_lines maxsize (S index) rest;
      Ok (ls ++ ls')
  end.

(** The lines that mode ['add'] of [_ConsoleOutput] draws for the
    sub-strings [subs] of an output, saved from position [index] on:
    the chunks of every sub-string (lines 251-252), each with the
    colour, the index of its entry and its character interval (lines
    262-270), oldest first. *)
Fixpoint added_lines (maxsize : Z) (index : nat) (color : Vec4) (subs : list string)
    : list OnscreenLine :=
  match subs with
  | [] => []
  | x :: rest =>
      imap (segment_line color (Z.of_nat index) (chunks maxsize x)) (chunks maxsize x)
        ++ added_lines maxsize (S index) color rest
  end.

(** Modelled from the spec: an empty slot, as the missing
    [redistribute] leaves it.  Section 4.3: cleared content and default
    colour; the index is the [line=None] that [create] gives to every
    line, and no character interval is recorded. *)
Definition blank : OnscreenLine :=
  {| text := ""; fg := white; lineIndex := None; charInterval := [] |}.

(** Modelled from the spec: the viewport drawn by the missing
    [redistribute] and [displace].  Sections 4.3 and 4.4: a window of
    [maxlines] slots over the lines [ls] (oldest first) that starts
    [skip] lines before the newest one; slot 0 is the newest line
    shown, older lines follow, and slots past the oldest line are
    empty. *)
Definition window (ls : list OnscreenLine) (maxlines : Z) (skip : Z) : list OnscreenLine :=
  take (Z.to_nat maxlines)
       (drop (Z.to_nat skip) (reverse ls) ++ replicate (Z.to_nat maxlines) blank).

(** Modelled from the spec: [redistribute] is defined in
    [pconsole/lines.py], which is not among the sources.  Section 4.3:
    it rebuilds all [maxLines] slots from the newest segments backward,
    as if the Line Wrapper were run again over every saved entry and
    the last [maxLines] segments were taken; slots beyond the available
    segments are left empty; the result depends on the history, the
    width and the number of rows only.  The function returns the new
    contents of [VisibleLines]. *)
Definition redistribute (SavedLines : list (string * Vec4)) (maxsize maxlines : Z)
    (VisibleLines : list OnscreenLine) : result (list OnscreenLine) :=
  ls ← history_lines maxsize 0 SavedLines;
  Ok (window ls maxlines 0).

(** Modelled from the spec: [displace] is defined in
    [pconsole/lines.py], which is not among the sources.  Section 4.4:
    the scroll index moves by [sign] and is clamped to
    [0 .. max(0, totalSegmentCount() - maxLines)]; the viewport is then
    drawn with slot 0 on segment [totalSegmentCount() - 1 - scrollIndex].
    The function returns the new contents of [VisibleLines] and the new
    index. *)
Definition displace (SavedLines : list (string * Vec4)) (maxsize maxlines : Z)
    (VisibleLines : list OnscreenLine) (scrollingindex sign : Z)
    : result (list OnscreenLine * Z) :=
  ls ← history_lines maxsize 0 SavedLines;
  let total := Z.of_nat (length ls) in
  let index := Z.max 0 (Z.min (scrollingindex + sign) (Z.max 0 (total - maxlines))) in
  Ok (window ls maxlines index, index).

(** Modelled from the spec: [totalSegmentCount()] has no counterpart
    in the sources.  Section 4.2: the sum of the segment counts of all
    the entries. *)
Definition totalSegmentCount (self : Console) : result Z :=
  ls ← history_lines (_maxsize self) 0 (_savedlines self);
  Ok (Z.of_nat (length ls)).

(** ** [Console._ConsoleOutput] *)

(** The call [redistribute(self._savedlines, self._maxsize,
    self._maxlines, self._visible_lines)], which updates the lines in
    place. *)
Definition call_redistribute : method unit :=
  self ← attr id;
  lines ← eval (redistribute (_savedlines self) (_maxsize self) (_maxlines self)
                             (_visible_lines self));
  update (set_visible_lines lines).

(** Lines 258-261: slot [x] takes the four attributes of slot [x-1]. *)
Definition shift (x : Z) : method unit :=
  t ← read_line (x - 1) text; write_line x (set_text t);;
  c ← read_line (x - 1) fg; write_line x (set_fg c);;
  n ← read_line (x - 1) lineIndex; write_line x (set_lineIndex n);;
  r ← read_line (x - 1) charInterval; write_line x (set_charInterval r).

(** Lines 266-268: [previous = ''; for t in range(i): previous +=
    discretized[t]], with [ts] the values of [t] left to visit. *)
Fixpoint previous_chars (discretized : list string) (ts : list Z) (previous : string)
    : result string :=
  match ts with
  | [] => Ok previous
  | t :: ts' =>
      d ← Py.getitem discretized t;
      previous_chars discretized ts' (previous +:+ d)
  end.

(** Lines 257-270: the body of [for i in range(len(discretized))]. *)
Definition add_segment (color : Vec4) (discretized : list string) (i : Z) : method unit :=
  maxlines ← attr _maxlines;
  xs ← eval (Py.range (maxlines - 1) 0 (-1));
  for_ xs shift;;
  d ← eval (Py.getitem discretized i);
  write_line 0 (set_text d);;
  write_line 0 (set_fg color);;
  saved ← attr _savedlines;
  write_line 0 (set_lineIndex (Some (Z.of_nat (length saved) - 1)));;
  ts ← eval (Py.range 0 i 1);
  previous ← eval (previous_chars discretized ts "");
  d ← eval (Py.getitem discretized i);
  write_line 0 (set_charInterval [Py.len previous; Py.len previous + Py.len d - 1]).

(** Lines 255-270: the body of [for discretized in text] in mode
    ['add']. *)
Definition add_entry (color : Vec4) (discretized : list string) : method unit :=
  saved ← attr _savedlines;
  update (set_savedlines (saved ++ [(Py.join discretized, color)]));;
  indices ← eval (Py.range 0 (Z.of_nat (length discretized)) 1);
  for_ indices (add_segment color discretized).

(** Lines 275-280: the body of [for discretized in text] in mode
    ['edit']. *)
Definition edit_entry (color : Vec4) (discretized : list string) : method unit :=
  let n := Z.of_nat (length discretized) in
  indices ← eval (Py.range 0 n 1);
  for_ indices (λ i,
    d ← eval (Py.getitem discretized (n - i - 1));
    write_line i (set_text d);;
    write_line i (set_fg color);;
    saved ← attr _savedlines;
    write_line i (set_lineIndex (Some (Z.of_nat (length saved) - 1)))).

(** [_ConsoleOutput(output, color, mode, CMD_type)].  [output] is
    [None] or a [str]; a [bytes] value is first turned into a [str] by
    [convert], which is outside the sources, and [encoding] is not
    used. *)
Definition _ConsoleOutput (output : option string) (color : Vec4) (mode : string)
    (CMD_type : bool) : method unit :=
  call_redistribute;;
  match output with
  | None => mret ()
  | Some output =>
      (if CMD_type then
         out ← attr stdout; update (set_stdout (out ++ [output]))
       else mret ());;
      maxsize ← attr _maxsize;
      text ← eval (wrap output maxsize);
      if String.eqb mode "add" then
        for_ text (add_entry color)
      else if String.eqb mode "edit" then
        saved ← attr _savedlines;
        saved' ← eval (Py.setitem saved (-1) (output, color));
        update (set_savedlines saved');;
        for_ text (edit_entry color)
      else mret ()
  end.

(** ** [Console._scroll] *)

Definition _scroll (direction : bool) : method unit :=
  let sign := (-1) ^ (Z.b2z direction + 1) in
  self ← attr id;
  r ← eval (displace (_savedlines self) (_maxsize self) (_maxlines self)
                     (_visible_lines self) (_scrollingindex self) sign);
  update (set_visible_lines r.1);;
  update (set_scrollingindex r.2).

(** ** [Console._callBack] *)

(** [self.entry.enterText(s)] *)
Definition enterText (s : string) : method unit := update (set_entry s).

Definition _callBack (key : bool) : method unit :=
  inputlines ← attr _inputlines;
  let invertedInput := reverse inputlines in
  if key then
    try_pass (
      index ← attr _callbackindex;
      if index <? Z.of_nat (length invertedInput) then
        update (set_callbackindex (index + 1));;
        index ← attr _callbackindex;
        s ← eval (Py.getitem invertedInput index);
        enterText s
      else mret ())
  else
    try_pass (
      index ← attr _callbackindex;
      if 0 <=? index then
        update (set_callbackindex (index - 1));;
        index ← attr _callbackindex;
        s ← eval (Py.getitem ("" :: invertedInput) index);
        enterText s
      else mret ()).

(** ** [Console._recomputeFrame] *)

(** The numbers of [_recomputeFrame] are floating-point values; they
    are taken as the rationals they stand for, so that rounding,
    infinities and NaN are left out. *)
Module PyNum.



End PyNum.


(** ** Further built-ins *)

Module PyLib.

(** [s.replace(old, "")] for a one-character [old]. *)
Fixpoint remove (old : ascii) (s : string) : string :=
  match s with
  | EmptyString => EmptyString
  | String c s' =>
      if Ascii.eqb c old then remove old s' else String c (remove old s')
  end.

(** [sep.join(l)] for a one-character [sep]. *)
Fixpoint join_with (sep : ascii) (l : list string) : string :=
  match l with
  | [] => EmptyString
  | x :: l' =>
      match l' with
      | [] => x
      | _ :: _ => x +:+ String sep (join_with sep l')
      end
  end.

(** [l.index(x)]: the position of the first element equal to [x];
    [None] stands for the [ValueError] raised when there is none. *)
Fixpoint index (x : string) (l : list string) : option nat :=
  match l with
  | [] => None
  | y :: l' => if String.eqb y x then Some 0%nat else S <$> index x l'
  end.

(** [d[k]] for a [dict] kept as the list of its items in insertion
    order; [None] stands for the [KeyError] raised for a missing
    key. *)
Fixpoint dict_get (d : list (string * string)) (k : string) : option string :=
  match d with
  | [] => None
  | (k', v) :: d' => if String.eqb k' k then Some v else dict_get d' k
  end.

End PyLib.

(** ** [find_all_str] *)

(** [poslist] collects, in order, the values of [i] that pass the
    test. *)
Definition find_all_str (sample : string) (string : String.string) : result (list Z) :=
  let n := Py.len sample in
  positions ← Py.range 0 (Py.len string - n + 1) 1;
  Ok (filter (λ i, Py.slice string i (i + n) = sample) positions).

(** ** [Console._textToLine] *)

(** [text] is a [str] or [None]; on [None] the call of [replace] raises
    and [except: pass] leaves [text] as it is. *)
Definition _textToLine (text : option string) : option string :=
  match text with
  | Some t => Some (PyLib.remove keyword t)
  | None => None
  end.

(** ** [Console._switch_adr] *)

(** The widgets of the prompt: the dictionary [_consoles] (its items in
    insertion order), the text of the button [_indicator] and the text
    of [_info]. *)
Record Prompt : Type := {
  _consoles : list (string * string);
  _indicator : string;
  _info : string
}.

Definition set_indicator (v : string) (p : Prompt) : Prompt :=
  {| _consoles := _consoles p; _indicator := v; _info := _info p |}.
Definition set_info (v : string) (p : Prompt) : Prompt :=
  {| _consoles := _consoles p; _indicator := _indicator p; _info := v |}.

(** How a method of the prompt ends: it returns, or raises one of the
    exceptions above or a [KeyError]. *)
Inductive outcome : Type :=
  | Returned
  | Raised (e : exn)
  | RaisedKeyError.

Definition _switch_adr (self : Prompt) : Prompt * outcome :=
  let current := _indicator self in
  let keys := (_consoles self).*1 in
  match PyLib.index current keys with
  | None => (self, Raised ValueError)
  | Some n =>
      let n := if Z.of_nat n =? Z.of_nat (length keys) - 1 then 0 else Z.of_nat n + 1 in
      match Py.getitem keys n with
      | Raise e => (self, Raised e)
      | Ok key =>
          let self := set_indicator key self in
          match PyLib.dict_get (_consoles self) (_indicator self) with
          | None => (self, RaisedKeyError)
          | Some target => (set_info ("targeting: " +:+ target) self, Returned)
          end
      end
  end.

(** [n] presses of the button or of f2; the first exception ends the
    sequence. *)
Fixpoint switch_times (n : nat) (self : Prompt) : Prompt * outcome :=
  match n with
  | O => (self, Returned)
  | S n' =>
      match _switch_adr self with
      | (self', Returned) => switch_times n' self'
      | r => r
      end
  end.

(** ** [Console.__process] *)

Definition set_inputlines (v : list string) (s : Console) : Console :=
  {| _maxsize := _maxsize s; _maxlines := _maxlines s; _savedlines := _savedlines s;
     _inputlines := v; _visible_lines := _visible_lines s;
     _callbackindex := _callbackindex s; _scrollingindex := _scrollingindex s;
     entry := entry s; stdout := stdout s |}.

Section process.

(** The three command processors of [pconsole/process.py], which is
    outside the sources: each receives the data (and the output method
    of the console, through which it acts on the console). *)
Variables py_process csl_process cmd_process : string → method unit.

(** [__process(data)], where [indicator] is [self._indicator['text']].
    Destroying the entry and loading a new one leaves an entry with
    [initialText=""]. *)
Definition __process (indicator : string) (data : string) : method unit :=
  if Py.len data =? 0 then mret ()
  else
    update (set_callbackindex (-1));;
    inputlines ← attr _inputlines;
    update (set_inputlines (inputlines ++ [data]));;
    update (set_entry "");;
    _ConsoleOutput (Some " ") white "add" false;;
    _ConsoleOutput (Some (indicator +:+ data)) white "add" false;;
    if String.eqb indicator "pyt> " then py_process data
    else if String.eqb indicator "csl> " then csl_process data
    else if String.eqb indicator "os$> " then cmd_process data
    else mret ().

End process.

(** ** [Console.help] *)

(** [(0.243, 0.941, 1, 1)] *)
Definition cyan : Vec4 := (243 # 1000, 941 # 1000, 1, 1)%Q.

(** [help()], where [commands] are the keys of
    [self._command_dictionary] in order, all of them strings. *)
Definition help (commands : list string) : method unit :=
  _ConsoleOutput (Some "List of available commands: ") cyan "add" false;;
  for_ commands (λ i, _ConsoleOutput (Some ("- " +:+ i)) white "add" false);;
  _ConsoleOutput (Some " ") white "add" false;;
  _ConsoleOutput (Some "Use usage(command) for more details on a specific command")
    white "add" false.

(** A command processor that leaves the input history and its cursor
    alone, whether it returns or raises. *)
Definition quiet (process : string → method unit) : Prop :=
  ∀ data, keeps _inputlines (process data) ∧ keeps _callbackindex (process data).

(** ** Examples *)

(** The state after [create] has set the scrolling attributes and
    built the lines, for a frame of [cols] columns and [rows] lines. *)
Definition created (cols rows : Z) : Console :=
  {| _maxsize := cols; _maxlines := rows; _savedlines := [];
     _inputlines := []; _visible_lines := replicate (Z.to_nat rows) blank;
     _callbackindex := -1; _scrollingindex := 0; entry := ""; stdout := [] |}.

(** ["hello\nworld"] *)
Definition hello_world : string := "hello" +:+ String keyword "world".

(** [Vec4(1, 0, 0, 1)] *)
Definition red : Vec4 := (1, 0, 0, 1)%Q.

(** ["a\n\nb"]: two consecutive newlines. *)
Definition blank_line_text : string := "a" +:+ String keyword (String keyword "b").

(** A console in which the commands [inputlines] were submitted, oldest
    first, while the cursor of the command history is at [index] and
    the entry shows [shown]. *)
Definition browsing (inputlines : list string) (index : Z) (shown : string) : Console :=
  {| _maxsize := 3; _maxlines := 2; _savedlines := [];
     _inputlines := inputlines; _visible_lines := replicate 2 blank;
     _callbackindex := index; _scrollingindex := 0; entry := shown; stdout := [] |}.

(** A console of width 3 and two rows whose history holds two
    entries, the first of three segments. *)
Definition two_entries : Console :=
  set_savedlines [("abcdefgh", white); ("xy", red)] (created 3 2).

(** The prompt that [create] builds, with the indicator on ['csl> '];
    [version] is the version of the package and [python] the first
    five characters of [sys.version]. *)
Definition created_prompt (version python : string) : Prompt :=
  {| _consoles := [("csl> ", "Pconsole " +:+ version);
                   ("pyt> ", python +:+ " runtime python console");
                   ("os$> ", "OS commandline")];
     _indicator := "csl> ";
     _info := "targeting: " +:+ ("Pconsole " +:+ version) |}.

(** A command processor that prints its data on the console. *)
Definition echo (data : string) : method unit :=
  _ConsoleOutput (Some data) white "add" false.

(** * Properties *)

(** ** Strings *)

Section strings.
Implicit Types (s x : string) (a b c : nat).

Lemma substring_nil a b : substring a b "" = "".
Proof. by destruct a, b. Qed.

Lemma substring_zero s a : substring a 0 s = "".
Proof.
  revert a; induction s as [|ch s IH]; intros [|a]; simpl; auto.
Qed.

Lemma substring_whole s b : (String.length s ≤ b)%nat → substring 0 b s = s.
Proof.
  revert b; induction s as [|ch s IH]; intros [|b] Hb; simpl in *; try done; try lia.
  f_equal. apply IH. lia.
Qed.

(** Characters asked for past the end of the string are not there. *)
Lemma substring_past s a b :
  (String.length s - a ≤ b)%nat → substring a b s = substring a (String.length s - a) s.
Proof.
  revert a b; induction s as [|ch s IH]; intros a b Hb.
  - by rewrite !substring_nil.
  - destruct a as [|a]; simpl in *.
    + destruct b as [|b]; [lia|]. f_equal.
      rewrite (IH 0%nat b) by lia. by rewrite Nat.sub_0_r.
    + by apply IH.
Qed.

Lemma append_cons ch s x : String ch s +:+ x = String ch (s +:+ x).
Proof. reflexivity. Qed.

Lemma append_nil_l s : "" +:+ s = s.
Proof. reflexivity. Qed.

Lemma substring_split s a b c :
  substring a (b + c) s = substring a b s +:+ substring (a + b) c s.
Proof.
  revert a b; induction s as [|ch s IH]; intros a b.
  - by rewrite !substring_nil.
  - destruct a as [|a]; simpl.
    + destruct b as [|b]; simpl; [done|].
      rewrite append_cons. f_equal. apply (IH 0%nat b).
    + apply IH.
Qed.

Lemma join_cons x (l : list string) : Py.join (x :: l) = x +:+ Py.join l.
Proof. done. Qed.

Lemma append_nil_r s : s +:+ "" = s.
Proof. induction s; [done|]. rewrite append_cons. congruence. Qed.

Lemma append_assoc s x y : (s +:+ x) +:+ y = s +:+ (x +:+ y).
Proof. induction s; [done|]. rewrite !append_cons. congruence. Qed.

Lemma split_length sep s :
  length (Py.split sep s) = S (Py.count sep s).
Proof.
  induction s as [|ch s IH]; [done|]. simpl.
  destruct (Ascii.eqb ch sep); simpl; [by rewrite IH|].
  destruct (Py.split sep s); simpl in *; lia.
Qed.

(** A text without the separator is its own single sub-string. *)
Lemma split_none sep s : Py.count sep s = 0%nat → Py.split sep s = [s].
Proof.
  induction s as [|ch s IH]; [done|]. simpl.
  destruct (Ascii.eqb ch sep); [done|]. intros H. by rewrite IH.
Qed.

End strings.

(** ** The line wrapper *)

Section wrapper.
Implicit Types (x output : string) (maxsize : Z).

Lemma discretize_chunks maxsize x :
  maxsize ≠ 0 → discretize maxsize x = Ok (chunks maxsize x).
Proof.
  intros Hm. unfold discretize, Py.range.
  destruct (Z.eqb_spec maxsize 0) as [?|_]; [done|]. reflexivity.
Qed.

Lemma comprehension_map {A B} (f : A → result B) (g : A → B) (l : list A) :
  (∀ a, f a = Ok (g a)) → comprehension f l = Ok (map g l).
Proof.
  intros Hf. induction l as [|a l IH]; [done|].
  simpl. rewrite Hf. simpl. rewrite IH. reflexivity.
Qed.

Lemma wrap_chunks output maxsize :
  maxsize ≠ 0 → wrap output maxsize = Ok (map (chunks maxsize) (Py.split keyword output)).
Proof.
  intros Hm. apply comprehension_map. intros x. by apply discretize_chunks.
Qed.

Lemma split_nonempty sep output : ∃ x l, Py.split sep output = x :: l.
Proof.
  pose proof (split_length sep output) as H.
  destruct (Py.split sep output) as [|x l]; [done|]. eauto.
Qed.


Lemma chunks_negative maxsize x : maxsize < 0 → chunks maxsize x = [].
Proof.
  intros Hm. unfold chunks, Py.range_len, Py.len.
  destruct (Z.ltb_spec 0 maxsize); [lia|].
  destruct (Z.ltb_spec (Z.of_nat (String.length x)) 0); [lia|]. reflexivity.
Qed.

Lemma chunks_empty maxsize : chunks maxsize "" = [].
Proof.
  unfold chunks, Py.range_len. simpl. by destruct (0 <? maxsize).
Qed.

(** Inside the string, the slice of [maxsize] characters is a plain
    [substring]. *)
Lemma slice_inside x i maxsize :
  0 ≤ i < Py.len x → 0 < maxsize →
  Py.slice x i (i + maxsize) = substring (Z.to_nat i) (Z.to_nat maxsize) x.
Proof.
  unfold Py.slice, Py.slice_bound, Py.len. intros Hi Hm.
  destruct (Z.ltb_spec i 0); [lia|].
  destruct (Z.ltb_spec (i + maxsize) 0); [lia|].
  rewrite (Z.min_l i) by lia.
  destruct (Z.le_gt_cases (i + maxsize) (Z.of_nat (String.length x))).
  - rewrite Z.min_l by lia. f_equal. lia.
  - rewrite Z.min_r by lia.
    rewrite (substring_past x (Z.to_nat i) (Z.to_nat maxsize)) by lia.
    f_equal. lia.
Qed.

Lemma range_len_bounds n maxsize :
  0 < maxsize → 0 ≤ n →
  0 ≤ Py.range_len 0 n maxsize ∧
  n ≤ Py.range_len 0 n maxsize * maxsize ∧
  (∀ k, 0 ≤ k < Py.range_len 0 n maxsize → k * maxsize < n).
Proof.
  intros Hm Hn. unfold Py.range_len.
  destruct (Z.ltb_spec 0 maxsize); [|lia].
  destruct (Z.ltb_spec 0 n) as [Hpos|?].
  - replace (n - 0 - 1) with (n - 1) by lia.
    pose proof (Z.mul_div_le (n - 1) maxsize Hm).
    pose proof (Z.mul_succ_div_gt (n - 1) maxsize Hm).
    assert (0 ≤ (n - 1) / maxsize) by (apply Z.div_pos; lia).
    repeat split; [lia|nia|]. intros k Hk. nia.
  - repeat split; lia.
Qed.

Lemma chunks_substrings maxsize x :
  0 < maxsize →
  chunks maxsize x =
    map (λ k : nat, substring (k * Z.to_nat maxsize) (Z.to_nat maxsize) x)
        (seq 0 (Z.to_nat (Py.range_len 0 (Py.len x) maxsize))).
Proof.
  intros Hm. unfold chunks. rewrite map_map.
  destruct (range_len_bounds (Py.len x) maxsize Hm) as (_ & _ & Hk);
    [unfold Py.len; lia|].
  apply map_ext_in. intros k Hin. apply in_seq in Hin.
  rewrite slice_inside; [f_equal; lia| |done].
  specialize (Hk (Z.of_nat k)). unfold Py.len in *. lia.
Qed.

Lemma join_substrings x (m a c : nat) :
  Py.join (map (λ k : nat, substring (k * m) m x) (seq a c)) = substring (a * m) (c * m) x.
Proof.
  revert a; induction c as [|c IH]; intros a; cbn [seq map].
  - by rewrite substring_zero.
  - rewrite join_cons, IH.
    replace (S a * m)%nat with (a * m + m)%nat by lia.
    replace (S c * m)%nat with (m + c * m)%nat by lia.
    by rewrite substring_split.
Qed.

(** Chunking loses no character. *)
Lemma join_chunks maxsize x : 0 < maxsize → Py.join (chunks maxsize x) = x.
Proof.
  intros Hm. rewrite chunks_substrings by done. rewrite join_substrings.
  apply substring_whole.
  destruct (range_len_bounds (Py.len x) maxsize Hm) as (? & ? & _);
    unfold Py.len in *; [lia|]. nia.
Qed.

(** A sub-string that fits in the width is its own single chunk,
    unless it is empty. *)
Lemma chunks_short maxsize x :
  0 < Py.len x ≤ maxsize → chunks maxsize x = [x].
Proof.
  intros Hx. rewrite chunks_substrings by lia.
  assert (Py.range_len 0 (Py.len x) maxsize = 1) as ->.
  { unfold Py.range_len.
    destruct (Z.ltb_spec 0 maxsize); [|lia].
    destruct (Z.ltb_spec 0 (Py.len x)); [|lia].
    rewrite Z.div_small; lia. }
  simpl. f_equal. apply substring_whole. unfold Py.len in *. lia.
Qed.

End wrapper.

(** ** Running methods *)

Section running.
Context {A B : Type}.
Implicit Types (self : Console) (m : method A) (f : A → method B).

Lemma bind_ok m f self self' a :
  m self = (self', Ok a) → (m ≫= f) self = f a self'.
Proof. intros H. unfold mbind, method_bind. by rewrite H. Qed.

Lemma bind_attr (g : Console → A) f self : (attr g ≫= f) self = f (g self) self.
Proof. reflexivity. Qed.

Lemma bind_eval (r : result A) f self :
  (eval r ≫= f) self = match r with Ok a => f a self | Raise e => (self, Raise e) end.
Proof. by destruct r. Qed.

End running.

(** A loop over a list in two parts. *)
Lemma for_app {A} (l l' : list A) (body : A → method unit) self self' :
  for_ l body self = (self', Ok ()) →
  for_ (l ++ l') body self = for_ l' body self'.
Proof.
  revert self; induction l as [|x l IH]; intros self H; simpl in *.
  - by inversion H.
  - unfold mbind, method_bind in *.
    destruct (body x self) as [self1 [[]|e]]; [by apply IH|done].
Qed.

(** ** Indexing with natural numbers *)

Section indexing.
Context {A : Type}.
Implicit Types (l : list A) (k : nat).

Lemma position_of_nat (n k : nat) : (k < n)%nat → Py.position n (Z.of_nat k) = Some k.
Proof.
  intros Hk. unfold Py.position.
  destruct (Z.ltb_spec (Z.of_nat k) 0); [lia|].
  destruct (Z.leb_spec 0 (Z.of_nat k)); [|lia].
  destruct (Z.ltb_spec (Z.of_nat k) (Z.of_nat n)); [|lia].
  simpl. f_equal. lia.
Qed.

Lemma getitem_of_nat l k a : l !! k = Some a → Py.getitem l (Z.of_nat k) = Ok a.
Proof.
  intros H. unfold Py.getitem.
  rewrite position_of_nat by (by eapply lookup_lt_Some). by rewrite H.
Qed.

Lemma setitem_of_nat l k v :
  (k < length l)%nat → Py.setitem l (Z.of_nat k) v = Ok (<[k := v]> l).
Proof. intros H. unfold Py.setitem. by rewrite position_of_nat. Qed.

(** [range(n)] *)
Lemma range_upto (n : nat) : Py.range 0 (Z.of_nat n) 1 = Ok (map Z.of_nat (seq 0 n)).
Proof.
  unfold Py.range, Py.range_len. simpl. f_equal.
  destruct (Z.ltb_spec 0 (Z.of_nat n)).
  - rewrite Z.div_1_r. replace (Z.to_nat (Z.of_nat n - 0 - 1 + 1)) with n by lia.
    apply map_ext. intros k. lia.
  - by replace n with 0%nat by lia.
Qed.

Lemma range_countdown (j : nat) : Py.range (Z.of_nat j) 0 (-1) = Ok (countdown j).
Proof.
  unfold Py.range, Py.range_len. simpl. f_equal.
  destruct (Z.ltb_spec 0 (Z.of_nat j)).
  - change (- -1) with 1. rewrite Z.div_1_r.
    replace (Z.to_nat (Z.of_nat j - 0 - 1 + 1)) with j by lia.
    clear. induction j as [|j IH]; [done|].
    cbn [seq map countdown]. apply (f_equal2 cons); [lia|].
    rewrite <- seq_shift, map_map, <- IH. apply map_ext. intros k. lia.
  - by replace j with 0%nat by lia.
Qed.

End indexing.

(** ** The visible lines *)

Section lines.
Implicit Types (self : Console) (k : nat) (o : OnscreenLine).

Lemma read_line_nat {A} self k o (f : OnscreenLine → A) :
  _visible_lines self !! k = Some o →
  read_line (Z.of_nat k) f self = (self, Ok (f o)).
Proof.
  intros H. unfold read_line.
  change ((attr _visible_lines ≫= _) self) with
    ((eval (Py.getitem (_visible_lines self) (Z.of_nat k)) ≫= λ o, mret (f o)) self).
  by rewrite bind_eval, (getitem_of_nat _ _ _ H).
Qed.

Lemma write_line_nat self k o (set : OnscreenLine → OnscreenLine) :
  _visible_lines self !! k = Some o →
  write_line (Z.of_nat k) set self =
    (set_visible_lines (<[k := set o]> (_visible_lines self)) self, Ok ()).
Proof.
  intros H. unfold write_line.
  change ((attr _visible_lines ≫= _) self) with
    ((eval (Py.getitem (_visible_lines self) (Z.of_nat k)) ≫= λ o,
       lines' ← eval (Py.setitem (_visible_lines self) (Z.of_nat k) (set o));
       update (set_visible_lines lines')) self).
  rewrite bind_eval, (getitem_of_nat _ _ _ H), bind_eval.
  by rewrite setitem_of_nat by (by eapply lookup_lt_Some).
Qed.

(** One step of the shifting loop copies slot [k] into slot [k+1]. *)
Lemma shift_nat self k o :
  _visible_lines self !! k = Some o →
  (S k < length (_visible_lines self))%nat →
  shift (Z.of_nat (S k)) self =
    (set_visible_lines (<[S k := o]> (_visible_lines self)) self, Ok ()).
Proof.
  intros Hk Hlen.
  destruct (lookup_lt_is_Some_2 _ _ Hlen) as [o' Ho'].
  unfold shift. replace (Z.of_nat (S k) - 1) with (Z.of_nat k) by lia.
  erewrite bind_ok; [|by apply read_line_nat].
  erewrite bind_ok; [|by apply write_line_nat].
  erewrite bind_ok;
    [|apply read_line_nat; simpl; by rewrite list_lookup_insert_ne by lia].
  erewrite bind_ok;
    [|apply write_line_nat; simpl; by apply list_lookup_insert_eq].
  erewrite bind_ok;
    [|apply read_line_nat; simpl; by rewrite !list_lookup_insert_ne by lia].
  erewrite bind_ok;
    [|apply write_line_nat; simpl; apply list_lookup_insert_eq; by rewrite length_insert].
  erewrite bind_ok;
    [|apply read_line_nat; simpl; by rewrite !list_lookup_insert_ne by lia].
  erewrite write_line_nat;
    [|simpl; apply list_lookup_insert_eq; by rewrite !length_insert].
  simpl. rewrite !list_insert_insert_eq. by destruct o.
Qed.

End lines.

(** ** The fast path of mode ['add'] *)

Section fast_path.
Implicit Types (self : Console) (o : OnscreenLine) (d : list string).

Lemma lines_set l self : _visible_lines (set_visible_lines l self) = l.
Proof. reflexivity. Qed.

Lemma set_set l l' self :
  set_visible_lines l (set_visible_lines l' self) = set_visible_lines l self.
Proof. reflexivity. Qed.

Lemma set_visible_lines_same self : set_visible_lines (_visible_lines self) self = self.
Proof. by destruct self. Qed.

(** The shifting loop from slot [j] down to slot 1. *)
Lemma shift_loop self (j : nat) :
  (j < length (_visible_lines self))%nat →
  for_ (countdown j) shift self =
    (set_visible_lines
       (take 1 (_visible_lines self) ++ take j (_visible_lines self)
          ++ drop (S j) (_visible_lines self)) self, Ok ()).
Proof.
  revert self; induction j as [|j IH]; intros self Hj.
  - simpl. rewrite take_drop. by rewrite set_visible_lines_same.
  - destruct (lookup_lt_is_Some_2 (_visible_lines self) j ltac:(lia)) as [o Ho].
    destruct (lookup_lt_is_Some_2 _ _ Hj) as [o' Ho'].
    cbn [countdown for_].
    erewrite bind_ok; [|by apply shift_nat].
    rewrite IH by (simpl; rewrite length_insert; lia).
    simpl _visible_lines. unfold set_visible_lines at 1. simpl.
    unfold set_visible_lines. do 2 f_equal.
    rewrite (take_S_r _ _ _ Ho).
    rewrite !take_insert_ge by lia.
    rewrite drop_insert_ge, Nat.sub_diag by lia.
    rewrite (drop_S _ _ _ Ho'). simpl.
    by rewrite <- (app_assoc _ [o]).
Qed.

Lemma previous_chars_run d (a c : nat) (previous : string) :
  (a + c ≤ length d)%nat →
  previous_chars d (map Z.of_nat (seq a c)) previous =
    Ok (previous +:+ Py.join (take c (drop a d))).
Proof.
  revert a previous; induction c as [|c IH]; intros a previous Hc.
  - simpl. by rewrite append_nil_r.
  - destruct (lookup_lt_is_Some_2 d a ltac:(lia)) as [x Hx].
    cbn [seq map previous_chars].
    rewrite (getitem_of_nat _ _ _ Hx). simpl.
    rewrite IH by lia. rewrite (drop_S _ _ _ Hx). cbn [take].
    by rewrite join_cons, append_assoc.
Qed.

(** One pass of the body of the inner loop: every line moves one
    slot back, the last one is lost, and the new segment takes
    slot 0. *)
Lemma add_segment_run self color d (i : nat) seg o0 rest :
  _visible_lines self = o0 :: rest →
  _maxlines self = Z.of_nat (S (length rest)) →
  d !! i = Some seg →
  add_segment color d (Z.of_nat i) self =
    (set_visible_lines
       (segment_line color (Z.of_nat (length (_savedlines self)) - 1) d i seg
          :: take (length rest) (o0 :: rest)) self, Ok ()).
Proof.
  intros Hvl Hmax Hd. unfold add_segment.
  rewrite bind_attr, Hmax.
  replace (Z.of_nat (S (length rest)) - 1) with (Z.of_nat (length rest)) by lia.
  rewrite range_countdown, bind_eval.
  erewrite bind_ok; [|apply shift_loop; rewrite Hvl; simpl; lia].
  rewrite Hvl. rewrite (drop_ge (o0 :: rest)) by (simpl; lia).
  rewrite app_nil_r. change (take 1 (o0 :: rest)) with [o0]. cbn [app].
  rewrite (getitem_of_nat _ _ _ Hd), bind_eval.
  erewrite bind_ok; [|by apply (write_line_nat _ 0)].
  rewrite lines_set, set_set. cbn [insert list_insert].
  erewrite bind_ok; [|by apply (write_line_nat _ 0)].
  rewrite lines_set, set_set. cbn [insert list_insert].
  rewrite bind_attr.
  erewrite bind_ok; [|by apply (write_line_nat _ 0)].
  rewrite lines_set, set_set. cbn [insert list_insert].
  rewrite range_upto, bind_eval.
  rewrite previous_chars_run by (apply lookup_lt_Some in Hd; lia).
  rewrite bind_eval, drop_0, append_nil_l, bind_eval.
  erewrite (write_line_nat _ 0); [|done].
  rewrite lines_set, set_set. reflexivity.
Qed.

Lemma take_app_take {A} (n : nat) (l k : list A) :
  take n (l ++ take n k) = take n (l ++ k).
Proof.
  rewrite !take_app, take_take. do 2 f_equal. lia.
Qed.

(** The inner loop over the segments numbered [a], ..., [a+c-1] of an
    entry: the newest segments come first, in front of what was
    shown. *)
Lemma add_segments_run self color d (a c : nat) :
  (a + c ≤ length d)%nat →
  _maxlines self = Z.of_nat (length (_visible_lines self)) →
  (0 < length (_visible_lines self))%nat →
  for_ (map Z.of_nat (seq a c)) (add_segment color d) self =
    (set_visible_lines
       (take (length (_visible_lines self))
          (reverse (take c (drop a
             (imap (segment_line color (Z.of_nat (length (_savedlines self)) - 1) d) d)))
           ++ _visible_lines self)) self, Ok ()).
Proof.
  revert a self; induction c as [|c IH]; intros a self Hc Hmax Hlen.
  - simpl. rewrite take_ge by lia. by rewrite set_visible_lines_same.
  - destruct (lookup_lt_is_Some_2 d a ltac:(lia)) as [seg Hseg].
    destruct (_visible_lines self) as [|o0 rest] eqn:Hvl; [simpl in Hlen; lia|].
    cbn [seq map for_].
    erewrite bind_ok; [|by apply add_segment_run].
    rewrite IH; [|lia|simpl; rewrite length_take, Hmax; simpl; lia|simpl; lia].
    rewrite lines_set, set_set. simpl _savedlines.
    do 2 f_equal.
    erewrite (drop_S _ _ a);
      [|rewrite list_lookup_imap, Hseg; reflexivity].
    cbn [take]. rewrite reverse_cons, <- app_assoc. cbn [app].
    replace (length (_ :: take (length rest) (o0 :: rest))) with (length (o0 :: rest))
      by (simpl; rewrite length_take; simpl; lia).
    change (?x :: take (length rest) (o0 :: rest))
      with (take (length (o0 :: rest)) (x :: o0 :: rest)).
    apply take_app_take.
Qed.

(** The body of the outer loop for one sub-string. *)
Lemma add_entry_run self color d :
  _maxlines self = Z.of_nat (length (_visible_lines self)) →
  (0 < length (_visible_lines self))%nat →
  add_entry color d self =
    (set_visible_lines
       (take (length (_visible_lines self))
          (reverse (imap (segment_line color (Z.of_nat (length (_savedlines self))) d) d)
           ++ _visible_lines self))
       (set_savedlines (_savedlines self ++ [(Py.join d, color)]) self), Ok ()).
Proof.
  intros Hmax Hlen. unfold add_entry.
  rewrite bind_attr.
  erewrite bind_ok; [|reflexivity].
  rewrite range_upto, bind_eval.
  rewrite add_segments_run; [|lia|done|done].
  simpl _visible_lines. simpl _savedlines.
  rewrite length_app. simpl length.
  replace (Z.of_nat (length (_savedlines self) + 1) - 1)
    with (Z.of_nat (length (_savedlines self))) by lia.
  rewrite drop_0, (take_ge _ (length d)) by (by rewrite length_imap).
  reflexivity.
Qed.

End fast_path.

(** ** The lines of the history *)

Section history.
Implicit Types (self : Console) (saved : list (string * Vec4)) (index : nat).

Lemma split_clean sep (s : string) :
  Forall (λ x, Py.count sep x = 0%nat) (Py.split sep s).
Proof.
  induction s as [|ch s IH]; simpl.
  - by repeat constructor.
  - destruct (Ascii.eqb ch sep) eqn:E.
    + by constructor.
    + destruct (Py.split sep s) as [|h t].
      * repeat constructor. simpl. by rewrite E.
      * inversion IH; subst. constructor; [|done]. simpl. by rewrite E.
Qed.

Lemma len_zero (x : string) : Py.len x = 0 ↔ x = "".
Proof.
  unfold Py.len. destruct x; simpl; split; intros H; try done; lia.
Qed.

Lemma line_wrapper_positive text maxWidth :
  0 < maxWidth →
  line_wrapper text maxWidth =
    Ok (map (λ x, if Py.len x =? 0 then [""] else chunks maxWidth x)
            (Py.split keyword text)).
Proof.
  intros Hm. unfold line_wrapper. by destruct (Z.leb_spec maxWidth 0); [lia|].
Qed.

Lemma entry_lines_total maxsize index (entry : string * Vec4) :
  0 < maxsize → ∃ ls, entry_lines maxsize index entry = Ok ls.
Proof.
  intros Hm. unfold entry_lines. rewrite line_wrapper_positive by done. simpl. eauto.
Qed.

(** The lines of the history are defined at every positive width,
    and at any width when nothing is saved. *)
Lemma history_lines_total maxsize index saved :
  0 < maxsize ∨ saved = [] → ∃ ls, history_lines maxsize index saved = Ok ls.
Proof.
  intros [Hm| ->]; [|by exists []].
  revert index; induction saved as [|entry saved IH]; intros index.
  - by exists [].
  - destruct (entry_lines_total maxsize index entry Hm) as [ls Hls].
    destruct (IH (S index)) as [ls' Hls'].
    exists (ls ++ ls'). simpl. rewrite Hls. simpl. rewrite Hls'. reflexivity.
Qed.

Lemma history_lines_app maxsize index saved saved' ls ls' :
  history_lines maxsize index saved = Ok ls →
  history_lines maxsize (index + length saved) saved' = Ok ls' →
  history_lines maxsize index (saved ++ saved') = Ok (ls ++ ls').
Proof.
  revert index ls; induction saved as [|entry saved IH]; intros index ls H H'.
  - simpl in *. inversion H; subst. by rewrite Nat.add_0_r in H'.
  - simpl in *.
    destruct (entry_lines maxsize index entry) as [l1|]; [|done]. simpl in *.
    destruct (history_lines maxsize (S index) saved) as [l2|] eqn:E; [|done].
    simpl in *. inversion H; subst.
    rewrite (IH (S index) l2); [|done|].
    + simpl. by rewrite app_assoc.
    + by rewrite <- H', Nat.add_succ_r.
Qed.

(** A sub-string of the output is saved as an entry of its own, and
    when it is not empty the Line Wrapper gives back its chunks. *)
Lemma entry_lines_clean maxsize index (x : string) color :
  0 < maxsize → Py.count keyword x = 0%nat → x ≠ "" →
  entry_lines maxsize index (x, color) =
    Ok (imap (segment_line color (Z.of_nat index) (chunks maxsize x)) (chunks maxsize x)).
Proof.
  intros Hm Hx Hne. unfold entry_lines. rewrite line_wrapper_positive by lia.
  simpl. rewrite (split_none _ _ Hx). simpl.
  destruct (Z.eqb_spec (Py.len x) 0) as [H0|_]; [by apply len_zero in H0|].
  by rewrite app_nil_r.
Qed.

(** The lines drawn by mode ['add'] are those of the new entries,
    when no sub-string is empty. *)
Lemma history_added maxsize index color (subs : list string) :
  0 < maxsize →
  Forall (λ x, Py.count keyword x = 0%nat) subs →
  Forall (λ x, x ≠ "") subs →
  history_lines maxsize index (map (λ x, (x, color)) subs) =
    Ok (added_lines maxsize index color subs).
Proof.
  intros Hm Hclean. revert index.
  induction Hclean as [|x subs Hx _ IH]; intros index Hne; [done|].
  inversion Hne; subst. simpl.
  rewrite entry_lines_clean by done. simpl. by rewrite IH.
Qed.

Lemma window_length ls (maxlines skip : Z) :
  length (window ls maxlines skip) = Z.to_nat maxlines.
Proof.
  unfold window. rewrite length_take, length_app, length_replicate. lia.
Qed.

Lemma call_redistribute_run self ls :
  history_lines (_maxsize self) 0 (_savedlines self) = Ok ls →
  call_redistribute self = (set_visible_lines (window ls (_maxlines self) 0) self, Ok ()).
Proof.
  intros H. unfold call_redistribute. rewrite bind_attr.
  unfold redistribute, id. rewrite H. reflexivity.
Qed.

(** The outer loop of mode ['add'] over the chunked sub-strings. *)
Lemma add_entries_run self color (subs : list string) :
  0 < _maxsize self →
  _maxlines self = Z.of_nat (length (_visible_lines self)) →
  (0 < length (_visible_lines self))%nat →
  for_ (map (chunks (_maxsize self)) subs) (add_entry color) self =
    (set_visible_lines
       (take (length (_visible_lines self))
          (reverse (added_lines (_maxsize self) (length (_savedlines self)) color subs)
           ++ _visible_lines self))
       (set_savedlines (_savedlines self ++ map (λ x, (x, color)) subs) self), Ok ()).
Proof.
  revert self; induction subs as [|x subs IH]; intros self Hm Hmax Hlen.
  - simpl. rewrite take_ge, app_nil_r by lia. by destruct self.
  - cbn [map for_ added_lines].
    erewrite bind_ok; [|by apply add_entry_run].
    rewrite join_chunks by done.
    set (lx := imap (segment_line color (Z.of_nat (length (_savedlines self)))
                       (chunks (_maxsize self) x)) (chunks (_maxsize self) x)).
    set (self1 := set_visible_lines _ _).
    assert (length (_visible_lines self1) = length (_visible_lines self)) as Hl1.
    { unfold self1. simpl. rewrite length_take, length_app. lia. }
    change (_maxsize self) with (_maxsize self1).
    rewrite (IH self1); [|done|by rewrite Hl1|by rewrite Hl1].
    rewrite Hl1. unfold self1. simpl.
    rewrite length_app. simpl. rewrite Nat.add_1_r.
    unfold set_visible_lines, set_savedlines. simpl. do 2 f_equal.
    + by rewrite <- app_assoc.
    + rewrite take_app_take, reverse_app. by rewrite <- app_assoc.
Qed.

End history.

(** ** One call of [_ConsoleOutput] in mode ['add'] *)

Section output.
Implicit Types (self : Console) (output : string) (color : Vec4).

Lemma window_push ls news (maxlines : Z) :
  take (Z.to_nat maxlines) (reverse news ++ window ls maxlines 0) =
  window (ls ++ news) maxlines 0.
Proof.
  unfold window. simpl. rewrite !drop_0.
  by rewrite take_app_take, reverse_app, <- app_assoc.
Qed.

(** One call in mode ['add']: the lines of the saved entries, as the
    call of [redistribute] has drawn them, followed by the lines drawn
    for the sub-strings of the output. *)
Lemma ConsoleOutput_add_run self output color (CMD_type : bool) :
  0 < _maxsize self → 0 < _maxlines self →
  ∃ olds,
    history_lines (_maxsize self) 0 (_savedlines self) = Ok olds ∧
    _ConsoleOutput (Some output) color "add" CMD_type self =
      (set_visible_lines
         (window (olds ++ added_lines (_maxsize self) (length (_savedlines self)) color
                            (Py.split keyword output)) (_maxlines self) 0)
         (set_savedlines
            (_savedlines self ++ map (λ x, (x, color)) (Py.split keyword output))
            (if CMD_type then set_stdout (stdout self ++ [output]) self else self)),
       Ok ()).
Proof.
  intros Hm Hl.
  destruct (history_lines_total (_maxsize self) 0 (_savedlines self)) as [olds Holds];
    [by left|].
  set (s0 := set_visible_lines (window olds (_maxlines self) 0) self).
  set (s1 := if CMD_type then set_stdout (stdout self ++ [output]) s0 else s0).
  assert (_maxsize s1 = _maxsize self) as Hm1 by (by destruct CMD_type).
  assert (_maxlines s1 = _maxlines self) as Hl1 by (by destruct CMD_type).
  assert (_savedlines s1 = _savedlines self) as Hs1 by (by destruct CMD_type).
  assert (_visible_lines s1 = window olds (_maxlines self) 0) as Hv1
    by (by destruct CMD_type).
  pose proof (add_entries_run s1 color (Py.split keyword output)) as Hrun.
  rewrite Hm1, Hs1, Hv1, window_length in Hrun.
  specialize (Hrun ltac:(lia) ltac:(lia) ltac:(lia)).
  exists olds. split; [done|].
  unfold _ConsoleOutput.
  erewrite bind_ok; [|by apply call_redistribute_run]. fold s0.
  erewrite (bind_ok _ _ s0 s1 ()); [|by destruct CMD_type].
  rewrite bind_attr, Hm1, wrap_chunks, bind_eval by lia.
  change (String.eqb "add" "add") with true. cbv iota.
  rewrite Hrun, window_push.
  unfold s1, s0. by destruct CMD_type.
Qed.



End output.

(** ** Attributes that a method does not touch *)

Section frame.
Context {X : Type} (π : Console → X).

Lemma keeps_ret {A} (a : A) : keeps π (mret a).
Proof. by intros self. Qed.

Lemma keeps_attr {A} (g : Console → A) : keeps π (attr g).
Proof. by intros self. Qed.

Lemma keeps_eval {A} (r : result A) : keeps π (eval r).
Proof. by intros self. Qed.

Lemma keeps_update (g : Console → Console) :
  (∀ self, π (g self) = π self) → keeps π (update g).
Proof. intros H self. apply H. Qed.

Lemma keeps_bind {A B} (m : method A) (f : A → method B) :
  keeps π m → (∀ a, keeps π (f a)) → keeps π (m ≫= f).
Proof.
  intros Hm Hf self. unfold mbind, method_bind.
  specialize (Hm self). destruct (m self) as [self1 [a|e]]; simpl in *.
  - by rewrite Hf.
  - done.
Qed.

Lemma keeps_for {A} (l : list A) (body : A → method unit) :
  (∀ x, keeps π (body x)) → keeps π (for_ l body).
Proof.
  intros Hbody. induction l as [|x l IH]; simpl.
  - apply keeps_ret.
  - apply keeps_bind; [apply Hbody|]. by intros _.
Qed.

(** Writing to a line touches the lines only. *)
Lemma keeps_write_line (x : Z) (set : OnscreenLine → OnscreenLine) :
  (∀ l self, π (set_visible_lines l self) = π self) →
  keeps π (write_line x set).
Proof.
  intros H. unfold write_line.
  apply keeps_bind; [apply keeps_attr|]. intros lines.
  apply keeps_bind; [apply keeps_eval|]. intros o.
  apply keeps_bind; [apply keeps_eval|]. intros lines'.
  by apply keeps_update.
Qed.

Lemma keeps_call_redistribute :
  (∀ l self, π (set_visible_lines l self) = π self) →
  keeps π call_redistribute.
Proof.
  intros H. unfold call_redistribute.
  apply keeps_bind; [apply keeps_attr|]. intros self.
  apply keeps_bind; [apply keeps_eval|]. intros lines.
  by apply keeps_update.
Qed.

Lemma keeps_edit_entry color (discretized : list string) :
  (∀ l self, π (set_visible_lines l self) = π self) →
  keeps π (edit_entry color discretized).
Proof.
  intros H. unfold edit_entry.
  apply keeps_bind; [apply keeps_eval|]. intros indices.
  apply keeps_for. intros i.
  apply keeps_bind; [apply keeps_eval|]. intros d.
  apply keeps_bind; [by apply keeps_write_line|]. intros _.
  apply keeps_bind; [by apply keeps_write_line|]. intros _.
  apply keeps_bind; [apply keeps_attr|]. intros saved.
  by apply keeps_write_line.
Qed.

End frame.

(** ** Assignment to the last entry *)

Section last_entry.
Context {A : Type}.
Implicit Types (l : list A).

Lemma setitem_last l a v : Py.setitem (l ++ [a]) (-1) v = Ok (l ++ [v]).
Proof.
  unfold Py.setitem, Py.position. rewrite length_app. simpl.
  destruct (Z.leb_spec 0 (-1 + Z.of_nat (length l + 1))); [|lia].
  destruct (Z.ltb_spec (-1 + Z.of_nat (length l + 1)) (Z.of_nat (length l + 1))); [|lia].
  simpl. f_equal.
  replace (Z.to_nat (-1 + Z.of_nat (length l + 1))) with (length l + 0)%nat by lia.
  by rewrite insert_app_r.
Qed.

Lemma setitem_nil (i : Z) v : Py.setitem (@nil A) i v = Raise IndexError.
Proof.
  unfold Py.setitem. change (length (@nil A)) with 0%nat.
  assert (Py.position 0 i = None) as ->; [|done].
  unfold Py.position. change (Z.of_nat 0) with 0.
  destruct (Z.ltb_spec i 0).
  - destruct (Z.leb_spec 0 (i + 0)); [lia|done].
  - destruct (Z.ltb_spec i 0); [lia|]. by rewrite andb_false_r.
Qed.

End last_entry.

(** ** Scrolling *)

Section scrolling.
Implicit Types (self : Console) (direction : bool).

Lemma scroll_run self direction ls :
  history_lines (_maxsize self) 0 (_savedlines self) = Ok ls →
  _scroll direction self =
    (let index :=
       Z.max 0 (Z.min (_scrollingindex self + (if direction then 1 else -1))
                      (Z.max 0 (Z.of_nat (length ls) - _maxlines self))) in
     set_scrollingindex index
       (set_visible_lines (window ls (_maxlines self) index) self), Ok ()).
Proof.
  intros H. unfold _scroll. rewrite bind_attr. unfold id, displace.
  rewrite H. by destruct direction.
Qed.

(** [n] scroll events in one direction, from an index within the
    range. *)
Lemma scroll_many (n : nat) direction self ls :
  history_lines (_maxsize self) 0 (_savedlines self) = Ok ls →
  0 ≤ _scrollingindex self ≤ Z.max 0 (Z.of_nat (length ls) - _maxlines self) →
  ∃ self',
    for_ (replicate n direction) _scroll self = (self', Ok ()) ∧
    _maxsize self' = _maxsize self ∧
    _maxlines self' = _maxlines self ∧
    _savedlines self' = _savedlines self ∧
    _scrollingindex self' =
      Z.max 0 (Z.min (_scrollingindex self + Z.of_nat n * (if direction then 1 else -1))
                     (Z.max 0 (Z.of_nat (length ls) - _maxlines self))).
Proof.
  revert self; induction n as [|n IH]; intros self Hls Hrange.
  - exists self. split; [done|]. repeat split. lia.
  - cbn [replicate for_].
    erewrite bind_ok; [|by apply scroll_run].
    match goal with |- context [for_ _ _ ?s] =>
      destruct (IH s) as (self' & Hrun & Hm & Hl & Hs & Hidx) end.
    { exact Hls. }
    { simpl. lia. }
    exists self'. split; [exact Hrun|].
    split; [exact Hm|]. split; [exact Hl|]. split; [exact Hs|].
    rewrite Hidx. simpl. destruct direction; lia.
Qed.

End scrolling.

(** * The claims *)

(** ** C1 *)




(** ** C2 *)

(** C2, as stated, fails: after ["hello\nworld"] is output at width 3 on
    a fresh console of four rows, the four slots show ["ld"], ["wor"],
    ["lo"], ["hel"] but do not carry one common [lineIndex]. *)
Lemma hello_world_counterexample :
  let self' := (_ConsoleOutput (Some hello_world) red "add" false (created 3 4)).1 in
  map text (_visible_lines self') = ["ld"; "wor"; "lo"; "hel"] ∧
  ¬ ∃ e, Forall (λ o, lineIndex o = e) (_visible_lines self').
Proof.
  split; [reflexivity|]. intros [e H]. vm_compute in H.
  rewrite !Forall_cons in H. destruct H as (H0 & _ & H2 & _). congruence.
Qed.

(** C2, amended: with width 3 and at least four rows, the output of
    ["hello\nworld"] returns, saves the two entries ["hello"] and
    ["world"], and fills slots 0 to 3 with ["ld"], ["wor"], ["lo"],
    ["hel"]; the slots of ["hel"] and ["lo"] carry the index of the
    entry ["hello"], those of ["wor"] and ["ld"] the next index. *)
Theorem hello_world_slots self color (CMD_type : bool) :
  _maxsize self = 3 → 4 ≤ _maxlines self →
  ∃ self',
    _ConsoleOutput (Some hello_world) color "add" CMD_type self = (self', Ok ()) ∧
    _savedlines self' = _savedlines self ++ [("hello", color); ("world", color)] ∧
    take 4 (_visible_lines self') =
      let e := Z.of_nat (length (_savedlines self)) in
      [ {| text := "ld"; fg := color; lineIndex := Some (e + 1); charInterval := [3; 4] |};
        {| text := "wor"; fg := color; lineIndex := Some (e + 1); charInterval := [0; 2] |};
        {| text := "lo"; fg := color; lineIndex := Some e; charInterval := [3; 4] |};
        {| text := "hel"; fg := color; lineIndex := Some e; charInterval := [0; 2] |} ].
Proof.
  intros Hm Hl.
  destruct (ConsoleOutput_add_run self hello_world color CMD_type)
    as (olds & _ & Hrun); [lia|lia|].
  rewrite Hm in Hrun.
  change (Py.split keyword hello_world) with ["hello"; "world"] in Hrun.
  cbn [added_lines] in Hrun.
  change (chunks 3 "hello") with ["hel"; "lo"] in Hrun.
  change (chunks 3 "world") with ["wor"; "ld"] in Hrun.
  eexists. split; [exact Hrun|]. split; [by destruct CMD_type|].
  cbn [_visible_lines set_visible_lines]. unfold window.
  rewrite drop_0, take_take, Nat.min_l by lia.
  rewrite reverse_app, <- app_assoc, take_app_length' by done.
  rewrite Nat2Z.inj_succ. unfold Z.succ. reflexivity.
Qed.

Lemma hello_world_slots_witness :
  (_maxsize (created 3 5) = 3 ∧ 4 ≤ _maxlines (created 3 5)) ∧
  ∃ self',
    _ConsoleOutput (Some hello_world) red "add" false (created 3 5) = (self', Ok ()) ∧
    _savedlines self' = _savedlines (created 3 5) ++ [("hello", red); ("world", red)] ∧
    take 4 (_visible_lines self') =
      let e := Z.of_nat (length (_savedlines (created 3 5))) in
      [ {| text := "ld"; fg := red; lineIndex := Some (e + 1); charInterval := [3; 4] |};
        {| text := "wor"; fg := red; lineIndex := Some (e + 1); charInterval := [0; 2] |};
        {| text := "lo"; fg := red; lineIndex := Some e; charInterval := [3; 4] |};
        {| text := "hel"; fg := red; lineIndex := Some e; charInterval := [0; 2] |} ].
Proof.
  split.
  - split; [reflexivity|]. simpl. lia.
  - apply (hello_world_slots (created 3 5) red false); [reflexivity|simpl; lia].
Defined.

(** ** C3 *)

(** C3, as stated, fails: ["a\n\nb"] wrapped at width 3 has three
    sub-strings, the second of which is empty and shorter than the
    width, and its group holds no chunk at all. *)
Lemma empty_substring_counterexample :
  Py.split keyword blank_line_text = ["a"; ""; "b"] ∧
  wrap blank_line_text 3 = Ok [["a"]; []; ["b"]] ∧
  ¬ ∃ groups chunk,
      wrap blank_line_text 3 = Ok groups ∧ groups !! 1%nat = Some [chunk].
Proof.
  split; [reflexivity|]. split; [reflexivity|].
  intros (groups & chunk & H & Hg). vm_compute in H.
  injection H as <-. discriminate Hg.
Qed.

(** C3, amended: for a positive width, wrapping a text with [k]
    newline characters returns exactly [k+1] groups, one per
    sub-string and in the same order; each group is the chunking of its
    sub-string and joins back to it; a sub-string that is not empty and
    no longer than the width gives exactly one chunk, itself; an empty
    sub-string gives a group without any chunk. *)
Theorem wrap_groups output maxsize :
  0 < maxsize →
  ∃ groups,
    wrap output maxsize = Ok groups ∧
    length groups = S (Py.count keyword output) ∧
    Forall2 (λ x group,
               discretize maxsize x = Ok group ∧
               Py.join group = x ∧
               (0 < Py.len x ≤ maxsize → group = [x]) ∧
               (x = "" → group = []))
            (Py.split keyword output) groups.
Proof.
  intros Hm. exists (map (chunks maxsize) (Py.split keyword output)).
  split; [apply wrap_chunks; lia|].
  split; [by rewrite length_map, split_length|].
  induction (Py.split keyword output) as [|x l IH]; constructor; [|exact IH].
  split; [apply discretize_chunks; lia|].
  split; [by apply join_chunks|].
  split; [apply chunks_short|].
  intros ->. apply chunks_empty.
Qed.

Lemma wrap_groups_witness :
  0 < 3 ∧
  ∃ groups,
    wrap blank_line_text 3 = Ok groups ∧
    length groups = S (Py.count keyword blank_line_text) ∧
    Forall2 (λ x group,
               discretize 3 x = Ok group ∧
               Py.join group = x ∧
               (0 < Py.len x ≤ 3 → group = [x]) ∧
               (x = "" → group = []))
            (Py.split keyword blank_line_text) groups.
Proof.
  split; [reflexivity|]. apply (wrap_groups blank_line_text 3). reflexivity.
Defined.

(** ** C4 *)

(** C4: for a positive width, the segments of a text without any
    newline character, concatenated in order, are the text. *)
Theorem wrap_lossless output maxsize :
  0 < maxsize → Py.count keyword output = 0%nat →
  ∃ groups, wrap output maxsize = Ok groups ∧ Py.join (concat groups) = output.
Proof.
  intros Hm Hnl. exists [chunks maxsize output]. split.
  - rewrite wrap_chunks by lia. by rewrite split_none.
  - simpl. rewrite app_nil_r. by apply join_chunks.
Qed.

Lemma wrap_lossless_witness :
  (0 < 3 ∧ Py.count keyword "abcdefgh" = 0%nat) ∧
  ∃ groups, wrap "abcdefgh" 3 = Ok groups ∧ Py.join (concat groups) = "abcdefgh".
Proof.
  split; [split; reflexivity|].
  apply (wrap_lossless "abcdefgh" 3); reflexivity.
Defined.

(** ** C5 *)

(** C5, as stated, fails: on a fresh console, whose saved lines are
    empty, the call in mode ['edit'] raises [IndexError], not
    [EmptyHistoryError]. *)
Lemma edit_empty_counterexample :
  _savedlines (created 3 5) = [] ∧
  (_ConsoleOutput (Some "x") red "edit" false (created 3 5)).2 = Raise IndexError ∧
  (_ConsoleOutput (Some "x") red "edit" false (created 3 5)).2 ≠ Raise EmptyHistoryError.
Proof.
  split; [reflexivity|]. split; [reflexivity|]. vm_compute. discriminate.
Qed.

(** C5, amended: with a wrap width other than zero, the call in mode
    ['edit'] with a text raises [IndexError] and leaves the saved lines
    empty when they are empty; when they are not and the wrap width is
    positive, the last saved entry becomes the pair of the text and the
    colour, whatever the call then returns or raises, and the entries
    before it are untouched.  (With saved lines and a negative width
    the Line Wrapper of the opening [redistribute] is in error.) *)
Theorem edit_last_entry self output color (CMD_type : bool) :
  _maxsize self ≠ 0 →
  (_savedlines self = [] →
   ∃ self', _ConsoleOutput (Some output) color "edit" CMD_type self
              = (self', Raise IndexError) ∧
            _savedlines self' = []) ∧
  (0 < _maxsize self → ∀ older last, _savedlines self = older ++ [last] →
   _savedlines (_ConsoleOutput (Some output) color "edit" CMD_type self).1
     = older ++ [(output, color)]).
Proof.
  intros Hm.
  assert (0 < _maxsize self ∨ _savedlines self = [] →
    ∃ s1, _savedlines s1 = _savedlines self ∧
    _ConsoleOutput (Some output) color "edit" CMD_type self =
    (saved ← attr _savedlines;
     saved' ← eval (Py.setitem saved (-1) (output, color));
     update (set_savedlines saved');;
     for_ (map (chunks (_maxsize self)) (Py.split keyword output)) (edit_entry color)) s1)
    as Hcall.
  { intros Hdrawn.
    destruct (history_lines_total (_maxsize self) 0 (_savedlines self) Hdrawn)
      as [ls Hls].
    set (s0 := set_visible_lines (window ls (_maxlines self) 0) self).
    set (s1 := if CMD_type then set_stdout (stdout self ++ [output]) s0 else s0).
    assert (_maxsize s1 = _maxsize self) as Hm1 by (by destruct CMD_type).
    exists s1. split; [by destruct CMD_type|].
    unfold _ConsoleOutput.
    erewrite bind_ok; [|by apply call_redistribute_run]. fold s0.
    erewrite (bind_ok _ _ s0 s1 ()); [|by destruct CMD_type].
    rewrite bind_attr, Hm1, wrap_chunks, bind_eval by done. reflexivity. }
  split.
  - intros Hnil. destruct (Hcall (or_intror Hnil)) as (s1 & Hs1 & ->).
    rewrite bind_attr, Hs1, Hnil, setitem_nil, bind_eval.
    exists s1. split; [done|]. by rewrite Hs1.
  - intros Hpos older last Hsaved.
    destruct (Hcall (or_introl Hpos)) as (s1 & Hs1 & ->).
    rewrite bind_attr, Hs1, Hsaved, setitem_last, bind_eval.
    erewrite bind_ok; [|reflexivity].
    rewrite (keeps_for _savedlines); [done|].
    intros d. by apply keeps_edit_entry.
Qed.

Lemma edit_last_entry_witness :
  (_maxsize (created 3 5) ≠ 0 ∧ _savedlines (created 3 5) = [] ∧
   ∃ self', _ConsoleOutput (Some "x") red "edit" false (created 3 5)
              = (self', Raise IndexError) ∧
            _savedlines self' = []) ∧
  (_maxsize two_entries ≠ 0 ∧ 0 < _maxsize two_entries ∧
   _savedlines two_entries = [("abcdefgh", white)] ++ [("xy", red)] ∧
   _savedlines (_ConsoleOutput (Some "xyz") red "edit" false two_entries).1
     = [("abcdefgh", white)] ++ [("xyz", red)]).
Proof.
  split.
  - split; [discriminate|]. split; [reflexivity|].
    apply (edit_last_entry (created 3 5) "x" red false); [discriminate|reflexivity].
  - split; [discriminate|]. split; [reflexivity|]. split; [reflexivity|].
    apply (proj2 (edit_last_entry two_entries "xyz" red false ltac:(discriminate))
             ltac:(reflexivity) [("abcdefgh", white)] ("xy", red)).
    reflexivity.
Defined.

(** ** C6 *)




(** ** C7 *)

(** C7: what [_callBack(False)] does after ["ls"] and then ["pwd"] were
    submitted.  From index 1 the index becomes 0 and the entry shows
    the empty string, not the newest command; from index 0 the index
    becomes -1 and the entry shows ["ls"], the oldest command, not the
    empty string; from index -1 nothing changes. *)
Theorem callBack_down_evaluated :
  _callBack false (browsing ["ls"; "pwd"] 1 "ls") = (browsing ["ls"; "pwd"] 0 "", Ok ()) ∧
  _callBack false (browsing ["ls"; "pwd"] 0 "pwd") = (browsing ["ls"; "pwd"] (-1) "ls", Ok ()) ∧
  _callBack false (browsing ["ls"; "pwd"] (-1) "typed")
    = (browsing ["ls"; "pwd"] (-1) "typed", Ok ()).
Proof. by repeat split. Qed.

(** ** C8 *)

(** C8: what [_callBack(True)] does at the boundary.  With one
    submitted command and the index at 0, the last valid position, the
    index still moves to 1 while the entry keeps its text; with no
    submitted command the index moves from -1 to 0.  No exception
    leaves the method. *)
Theorem callBack_up_evaluated :
  _callBack true (browsing ["ls"] 0 "ls") = (browsing ["ls"] 1 "ls", Ok ()) ∧
  _callBack true (browsing [] (-1) "") = (browsing [] 0 "", Ok ()) ∧
  _callBack true (browsing ["ls"; "pwd"] 0 "pwd") = (browsing ["ls"; "pwd"] 1 "ls", Ok ()).
Proof. by repeat split. Qed.

(** ** C9 *)

(** C9: with a positive wrap width, or with no saved line at all, and
    a row capacity that is not negative, the history has a total
    segment count [total]; every
    scroll event, in either direction and from any index, returns and
    leaves the scroll index between 0 and [max(0, total - maxlines)]
    without changing the count; [n > total] events toward older content
    leave the index at [max(0, total - maxlines)], and [n] events toward
    newer content after them bring it back to 0.  (With saved lines and
    a width that is not positive, the Line Wrapper that [displace] runs
    is in error.) *)
Theorem scroll_index_clamped self :
  0 < _maxsize self ∨ _savedlines self = [] → 0 ≤ _maxlines self →
  ∃ total,
    totalSegmentCount self = Ok total ∧
    (∀ direction, ∃ self',
       _scroll direction self = (self', Ok ()) ∧
       totalSegmentCount self' = Ok total ∧
       _maxlines self' = _maxlines self ∧
       0 ≤ _scrollingindex self' ≤ Z.max 0 (total - _maxlines self)) ∧
    (∀ n : nat, total < Z.of_nat n → ∃ self1 self2,
       for_ (replicate n true) _scroll self = (self1, Ok ()) ∧
       _scrollingindex self1 = Z.max 0 (total - _maxlines self) ∧
       for_ (replicate n false) _scroll self1 = (self2, Ok ()) ∧
       _scrollingindex self2 = 0).
Proof.
  intros Hm Hl.
  destruct (history_lines_total (_maxsize self) 0 (_savedlines self) Hm) as [ls Hls].
  exists (Z.of_nat (length ls)). split; [|split].
  - unfold totalSegmentCount. by rewrite Hls.
  - intros direction. eexists. split; [by apply scroll_run|].
    split; [|split].
    + unfold totalSegmentCount. simpl. by rewrite Hls.
    + done.
    + simpl. lia.
  - intros [|n] Hn; [lia|].
    cbn [replicate for_].
    erewrite bind_ok; [|by apply scroll_run].
    match goal with |- context [for_ _ _ ?s] =>
      destruct (scroll_many n true s ls) as (self1 & Hrun1 & Hm1 & Hl1 & Hs1 & Hidx1) end.
    { exact Hls. }
    { simpl. lia. }
    simpl in Hm1, Hl1, Hs1, Hidx1.
    destruct (scroll_many (S n) false self1 ls) as (self2 & Hrun2 & _ & _ & _ & Hidx2).
    { by rewrite Hm1, Hs1. }
    { rewrite Hidx1, Hl1. lia. }
    exists self1, self2.
    split; [exact Hrun1|]. split; [lia|].
    split; [exact Hrun2|]. rewrite Hidx2, Hidx1, Hl1. lia.
Qed.

Lemma scroll_index_clamped_witness :
  ((0 < _maxsize two_entries ∨ _savedlines two_entries = []) ∧
   0 ≤ _maxlines two_entries) ∧
  ∃ total,
    totalSegmentCount two_entries = Ok total ∧
    (∀ direction, ∃ self',
       _scroll direction two_entries = (self', Ok ()) ∧
       totalSegmentCount self' = Ok total ∧
       _maxlines self' = _maxlines two_entries ∧
       0 ≤ _scrollingindex self' ≤ Z.max 0 (total - _maxlines two_entries)) ∧
    (∀ n : nat, total < Z.of_nat n → ∃ self1 self2,
       for_ (replicate n true) _scroll two_entries = (self1, Ok ()) ∧
       _scrollingindex self1 = Z.max 0 (total - _maxlines two_entries) ∧
       for_ (replicate n false) _scroll self1 = (self2, Ok ()) ∧
       _scrollingindex self2 = 0).
Proof.
  split.
  - split; [left; reflexivity|]. simpl. lia.
  - apply (scroll_index_clamped two_entries); [left; reflexivity|simpl; lia].
Defined.

(** ** C10 *)

(** C10: for every state of the console, every colour, mode and
    [CMD_type], the call [_ConsoleOutput(None, ...)] leaves the saved
    lines and the input lines exactly as they were: no entry is
    appended. *)
Theorem ConsoleOutput_None_appends_nothing self color mode (CMD_type : bool) :
  let self' := (_ConsoleOutput None color mode CMD_type self).1 in
  _savedlines self' = _savedlines self ∧ _inputlines self' = _inputlines self.
Proof.
  split.
  - apply (keeps_bind _savedlines); [by apply keeps_call_redistribute|].
    intros _. apply keeps_ret.
  - apply (keeps_bind _inputlines); [by apply keeps_call_redistribute|].
    intros _. apply keeps_ret.
Qed.

(** * Further properties *)

(** ** Sub-strings at a position *)

Section occurrences.
Implicit Types (s before after : string) (a b : nat).

Lemma length_append s (x : string) :
  String.length (s +:+ x) = (String.length s + String.length x)%nat.
Proof. induction s as [|ch s IH]; [done|]. rewrite append_cons. simpl. by rewrite IH. Qed.

Lemma substring_length s a b :
  String.length (substring a b s) = (b `min` (String.length s - a))%nat.
Proof.
  revert a b; induction s as [|ch s IH]; intros a b.
  - rewrite substring_nil. simpl. lia.
  - destruct a as [|a]; simpl.
    + destruct b as [|b]; simpl; [done|]. rewrite (IH 0%nat b). lia.
    + apply IH.
Qed.

Lemma substring_prefix (x : string) s : substring 0 (String.length x) (x +:+ s) = x.
Proof.
  induction x as [|ch x IH]; simpl.
  - by rewrite append_nil_l, substring_zero.
  - by rewrite IH.
Qed.

Lemma substring_skip before s a b :
  substring (String.length before + a) b (before +:+ s) = substring a b s.
Proof.
  induction before as [|ch before IH]; [done|].
  rewrite append_cons. simpl. apply IH.
Qed.

(** The string around the [b] characters that start at position [a]. *)
Lemma substring_around s a b :
  (a + b ≤ String.length s)%nat →
  s = substring 0 a s +:+ substring a b s
        +:+ substring (a + b) (String.length s - (a + b)) s.
Proof.
  intros H. rewrite <- (substring_split s a b).
  rewrite <- (substring_split s 0 a).
  symmetry. apply substring_whole. lia.
Qed.

(** A slice that lies inside the string is a plain [substring]. *)
Lemma slice_exact s (i n : Z) :
  0 ≤ i → 0 ≤ n → i + n ≤ Py.len s →
  Py.slice s i (i + n) = substring (Z.to_nat i) (Z.to_nat n) s.
Proof.
  unfold Py.slice, Py.slice_bound, Py.len. intros Hi Hn Hlen.
  destruct (Z.ltb_spec i 0); [lia|].
  destruct (Z.ltb_spec (i + n) 0); [lia|].
  rewrite !Z.min_l by lia. f_equal. lia.
Qed.

Lemma range_from_zero (stop : Z) :
  Py.range 0 stop 1 = Ok (map Z.of_nat (seq 0 (Z.to_nat stop))).
Proof.
  destruct (Z.le_gt_cases 0 stop).
  - rewrite <- (Z2Nat.id stop) at 1 by done. apply range_upto.
  - unfold Py.range, Py.range_len. simpl.
    destruct (Z.ltb_spec 0 stop); [lia|]. by replace (Z.to_nat stop) with 0%nat by lia.
Qed.

Lemma elem_of_naturals (i : Z) (n : nat) :
  i ∈ map Z.of_nat (seq 0 n) ↔ 0 ≤ i < Z.of_nat n.
Proof.
  change (map Z.of_nat (seq 0 n)) with (Z.of_nat <$> seq 0 n).
  rewrite list_elem_of_fmap. split.
  - intros (k & -> & Hk). apply elem_of_seq in Hk. lia.
  - intros Hi. exists (Z.to_nat i). split; [lia|]. apply elem_of_seq. lia.
Qed.

Lemma filter_sorted {A} (R : relation A) (P : A → Prop) `{∀ x, Decision (P x)}
    (l : list A) :
  StronglySorted R l → StronglySorted R (filter P l).
Proof.
  induction 1 as [|x l Hl IH Hx]; [constructor|].
  rewrite filter_cons. destruct (decide (P x)); [|done].
  constructor; [done|].
  apply Forall_forall. intros y Hy. apply list_elem_of_filter in Hy as [_ Hy].
  by eapply Forall_forall in Hx.
Qed.

Lemma naturals_sorted (a n : nat) : StronglySorted Z.lt (map Z.of_nat (seq a n)).
Proof.
  revert a; induction n as [|n IH]; intros a; simpl; constructor; [apply IH|].
  apply Forall_forall. intros y Hy.
  change (map Z.of_nat (seq (S a) n)) with (Z.of_nat <$> seq (S a) n) in Hy.
  apply list_elem_of_fmap in Hy as (k & -> & Hk). apply elem_of_seq in Hk. lia.
Qed.

Lemma filter_all {A} (P : A → Prop) `{∀ x, Decision (P x)} (l : list A) :
  (∀ x, P x) → filter P l = l.
Proof.
  intros HP. induction l as [|x l IH]; [done|].
  by rewrite filter_cons_True, IH.
Qed.

(** Filters of two images of a list that agree elementwise keep the
    same number of elements. *)
Lemma filter_length_map {A B C} (P : B → Prop) (Q : C → Prop)
    `{∀ x, Decision (P x)} `{∀ x, Decision (Q x)} (f : A → B) (g : A → C) (l : list A) :
  (∀ x, x ∈ l → P (f x) ↔ Q (g x)) →
  length (filter P (map f l)) = length (filter Q (map g l)).
Proof.
  induction l as [|x l IH]; intros Hl; [done|]. cbn [map].
  rewrite !filter_cons.
  assert (length (filter P (map f l)) = length (filter Q (map g l))) as Hrest.
  { apply IH. intros y Hy. apply Hl. by right. }
  destruct (decide (P (f x))) as [HP|HP], (decide (Q (g x))) as [HQ|HQ]; simpl.
  - by rewrite Hrest.
  - destruct HQ. by apply (Hl x); [left|].
  - destruct HP. by apply (Hl x); [left|].
  - done.
Qed.

End occurrences.

(** ** [find_all_str] *)

(** X1: [find_all_str] returns a list, and a position is in it exactly
    when the sample occurs in the string at that position, that is,
    when the string is some text of that length, the sample, and some
    text. *)
Theorem find_all_str_occurrences (sample : string) (string : String.string) :
  ∃ poslist,
    find_all_str sample string = Ok poslist ∧
    ∀ i, i ∈ poslist ↔
         ∃ before after, string = before +:+ sample +:+ after ∧ Py.len before = i.
Proof.
  unfold find_all_str. rewrite range_from_zero. eexists. split; [reflexivity|].
  intros i. rewrite list_elem_of_filter, elem_of_naturals. unfold Py.len. split.
  - intros [Hs Hi].
    rewrite slice_exact in Hs by (unfold Py.len; lia).
    exists (substring 0 (Z.to_nat i) string),
      (substring (Z.to_nat i + String.length sample)
         (String.length string - (Z.to_nat i + String.length sample)) string).
    split.
    + rewrite <- Hs at 1. rewrite Nat2Z.id. apply substring_around. lia.
    + rewrite substring_length. lia.
  - intros (before & after & -> & <-).
    rewrite !length_append. split; [|lia].
    rewrite slice_exact by (unfold Py.len; rewrite ?length_append; lia).
    rewrite !Nat2Z.id.
    rewrite <- (Nat.add_0_r (String.length before)), substring_skip.
    apply substring_prefix.
Qed.

(** X2: the positions come in strictly increasing order, so none is
    reported twice. *)
Theorem find_all_str_increasing (sample : string) (string : String.string) :
  ∃ poslist,
    find_all_str sample string = Ok poslist ∧
    StronglySorted Z.lt poslist ∧ NoDup poslist.
Proof.
  unfold find_all_str. rewrite range_from_zero. eexists. split; [reflexivity|].
  assert (StronglySorted Z.lt
            (filter (λ i, Py.slice string i (i + Py.len sample) = sample)
               (map Z.of_nat (seq 0 (Z.to_nat (Py.len string - Py.len sample + 1))))))
    as Hsorted by apply filter_sorted, naturals_sorted.
  split; [exact Hsorted|].
  induction Hsorted as [|x l _ IH Hx]; constructor; [|exact IH].
  intros Hin. eapply Forall_forall in Hx; [|exact Hin]. lia.
Qed.

(** X3: the empty sample is found at every position of the string,
    the end included: a string of [n] characters gives the [n+1]
    positions 0, ..., [n]. *)
Theorem find_all_str_empty_sample (string : String.string) :
  find_all_str "" string = Ok (map Z.of_nat (seq 0 (S (String.length string)))).
Proof.
  unfold find_all_str. rewrite range_from_zero.
  replace (Z.to_nat (Py.len string - Py.len "" + 1)) with (S (String.length string))
    by (unfold Py.len; simpl; lia).
  unfold mbind, result_bind. f_equal.
  apply filter_all. intros i. unfold Py.slice.
  replace (i + Py.len "") with i by (unfold Py.len; simpl; lia).
  rewrite Z.sub_diag. apply substring_zero.
Qed.

(** X4: for a sample of one character, the number of positions found
    is the number of occurrences of the character, one less than the
    number of pieces that [split] cuts the string into. *)
Theorem find_all_str_counts (c : ascii) (string : String.string) :
  ∃ poslist,
    find_all_str (String c "") string = Ok poslist ∧
    length poslist = Py.count c string ∧
    length (Py.split c string) = S (length poslist).
Proof.
  unfold find_all_str. rewrite range_from_zero. eexists. split; [reflexivity|].
  rewrite split_length.
  assert (length (filter (λ i, Py.slice string i (i + Py.len (String c "")) = String c "")
            (map Z.of_nat (seq 0 (Z.to_nat (Py.len string - Py.len (String c "") + 1)))))
          = Py.count c string) as ->; [|done].
  replace (Z.to_nat (Py.len string - Py.len (String c "") + 1))
    with (String.length string) by (unfold Py.len; simpl; lia).
  change (Py.len (String c "")) with 1.
  induction string as [|a s IH]; [done|].
  cbn [String.length seq map Py.count]. rewrite filter_cons.
  rewrite <- seq_shift, map_map.
  pose proof (filter_length_map
                (λ i, Py.slice (String a s) i (i + 1) = String c "")
                (λ i, Py.slice s i (i + 1) = String c "")
                (λ k : nat, Z.of_nat (S k)) Z.of_nat (seq 0 (String.length s))) as Hrest.
  rewrite IH in Hrest. specialize (Hrest ltac:(
    intros k Hk; apply elem_of_seq in Hk;
    rewrite !slice_exact by (unfold Py.len; simpl; lia);
    by rewrite Nat2Z.inj_succ, Z2Nat.inj_succ, !Nat2Z.id by lia)).
  change (Z.of_nat 0) with 0.
  rewrite (slice_exact (String a s) 0 1) by (unfold Py.len; simpl; lia).
  assert (substring (Z.to_nat 0) (Z.to_nat 1) (String a s) = String a "") as ->
    by (simpl; by rewrite substring_zero).
  destruct (decide _) as [Heq|Hne]; cbn [length]; rewrite Hrest.
  - injection Heq as ->. by rewrite Ascii.eqb_refl.
  - destruct (Ascii.eqb_spec a c) as [->|_]; [|done]. by destruct Hne.
Qed.

(** ** [_textToLine] *)

Section removal.
Implicit Types (s : string) (c : ascii).

Lemma remove_count c s : Py.count c (PyLib.remove c s) = 0%nat.
Proof.
  induction s as [|a s IH]; [done|]. simpl.
  destruct (Ascii.eqb a c) eqn:E; [done|]. simpl. by rewrite E.
Qed.

Lemma remove_length c s :
  (String.length (PyLib.remove c s) + Py.count c s = String.length s)%nat.
Proof.
  induction s as [|a s IH]; [done|]. simpl.
  destruct (Ascii.eqb a c); simpl; lia.
Qed.

Lemma remove_clean c s : Py.count c s = 0%nat → PyLib.remove c s = s.
Proof.
  induction s as [|a s IH]; [done|]. simpl.
  destruct (Ascii.eqb a c); [done|]. intros H. by rewrite IH.
Qed.

(** Removing the separator is cutting at it and gluing the pieces. *)
Lemma join_split c s : Py.join (Py.split c s) = PyLib.remove c s.
Proof.
  induction s as [|a s IH]; [done|]. simpl.
  destruct (Ascii.eqb a c).
  - by rewrite join_cons, append_nil_l.
  - destruct (split_nonempty c s) as (h & t & E). rewrite E in *.
    by rewrite join_cons, append_cons, <- join_cons, IH.
Qed.

(** Gluing the pieces with the separator gives the string back. *)
Lemma join_with_split c s : PyLib.join_with c (Py.split c s) = s.
Proof.
  induction s as [|a s IH]; [done|]. simpl.
  destruct (split_nonempty c s) as (h & t & E). rewrite E in *.
  destruct (Ascii.eqb_spec a c) as [->|Hne].
  - change (PyLib.join_with c ("" :: h :: t))
      with ("" +:+ String c (PyLib.join_with c (h :: t))).
    by rewrite append_nil_l, IH.
  - destruct t as [|h' t].
    + simpl in *. by rewrite IH.
    + change (PyLib.join_with c (String a h :: h' :: t))
        with (String a h +:+ String c (PyLib.join_with c (h' :: t))).
      change (PyLib.join_with c (h :: h' :: t))
        with (h +:+ String c (PyLib.join_with c (h' :: t))) in IH.
      by rewrite append_cons, IH.
Qed.

End removal.

(** X5: on a text, [_textToLine] returns a text without any newline
    whose length is the length of the argument less the number of its
    newlines; [None] is returned as it is. *)
Theorem textToLine_strips (t : string) :
  _textToLine None = None ∧
  ∃ t', _textToLine (Some t) = Some t' ∧
        Py.count keyword t' = 0%nat ∧
        (String.length t' + Py.count keyword t = String.length t)%nat.
Proof.
  split; [done|]. eexists. split; [reflexivity|].
  split; [apply remove_count|apply remove_length].
Qed.

(** X6: the text that [_textToLine] returns is the concatenation of the
    sub-strings into which the line wrapper splits the argument; a
    text without newline is returned unchanged, so cleaning twice is
    cleaning once. *)
Theorem textToLine_joins_split (t : string) :
  _textToLine (Some t) = Some (Py.join (Py.split keyword t)) ∧
  (Py.count keyword t = 0%nat → _textToLine (Some t) = Some t) ∧
  _textToLine (_textToLine (Some t)) = _textToLine (Some t).
Proof.
  split; [by rewrite join_split|]. split.
  - intros H. simpl. by rewrite remove_clean.
  - simpl. by rewrite (remove_clean _ _ (remove_count _ _)).
Qed.

(** ** More on [_ConsoleOutput] *)

Section more_output.
Implicit Types (self : Console) (output : string) (color : Vec4).

Lemma saved_pairs_fst color (subs : list string) :
  (map (λ x, (x, color)) subs).*1 = subs.
Proof. induction subs as [|x subs IH]; [done|]. cbn. by f_equal. Qed.

(** The body of the outer loop for a sub-string without chunks. *)
Lemma add_entry_nil self color :
  add_entry color [] self =
    (set_savedlines (_savedlines self ++ [("", color)]) self, Ok ()).
Proof. reflexivity. Qed.

Lemma add_entries_nil self color (n : nat) :
  for_ (replicate n []) (add_entry color) self =
    (set_savedlines (_savedlines self ++ replicate n ("", color)) self, Ok ()).
Proof.
  revert self; induction n as [|n IH]; intros self.
  - simpl. rewrite app_nil_r. by destruct self.
  - cbn [replicate for_]. erewrite bind_ok; [|apply add_entry_nil].
    rewrite IH. simpl. unfold set_savedlines. simpl.
    by rewrite <- app_assoc.
Qed.

End more_output.

(** X7: with a positive width and a positive number of rows, the
    output in mode ['add'] of a text cleaned by [_textToLine] returns
    and saves exactly one entry, the cleaned text with the colour. *)
Theorem textToLine_output_one_entry self (t : string) color (CMD_type : bool) :
  0 < _maxsize self → 0 < _maxlines self →
  ∃ self',
    _ConsoleOutput (_textToLine (Some t)) color "add" CMD_type self = (self', Ok ()) ∧
    _savedlines self' = _savedlines self ++ [(PyLib.remove keyword t, color)].
Proof.
  intros Hm Hl. simpl.
  destruct (ConsoleOutput_add_run self (PyLib.remove keyword t) color CMD_type Hm Hl)
    as (olds & _ & Hrun).
  rewrite (split_none _ _ (remove_count _ _)) in Hrun.
  eexists. split; [exact Hrun|]. by destruct CMD_type.
Qed.

Lemma textToLine_output_one_entry_witness :
  (0 < _maxsize (created 3 5) ∧ 0 < _maxlines (created 3 5)) ∧
  ∃ self',
    _ConsoleOutput (_textToLine (Some blank_line_text)) red "add" false (created 3 5)
      = (self', Ok ()) ∧
    _savedlines self' =
      _savedlines (created 3 5) ++ [(PyLib.remove keyword blank_line_text, red)].
Proof.
  split; [split; reflexivity|].
  apply (textToLine_output_one_entry (created 3 5) blank_line_text red false);
    reflexivity.
Defined.

(** X8: with a positive width and a positive number of rows, the
    output of a text in mode ['add'] returns and appends one saved
    entry for each of the [k+1] sub-strings between its [k] newlines;
    every new entry has the colour and no newline, and the new texts
    joined by newlines are the text that was output. *)
Theorem add_saves_substrings self output color (CMD_type : bool) :
  0 < _maxsize self → 0 < _maxlines self →
  ∃ self' news,
    _ConsoleOutput (Some output) color "add" CMD_type self = (self', Ok ()) ∧
    _savedlines self' = _savedlines self ++ news ∧
    length news = S (Py.count keyword output) ∧
    Forall (λ saved, saved.2 = color ∧ Py.count keyword saved.1 = 0%nat) news ∧
    PyLib.join_with keyword news.*1 = output.
Proof.
  intros Hm Hl.
  destruct (ConsoleOutput_add_run self output color CMD_type Hm Hl)
    as (olds & _ & Hrun).
  eexists _, (map (λ x, (x, color)) (Py.split keyword output)).
  split; [exact Hrun|]. split; [by destruct CMD_type|].
  split; [by rewrite length_map, split_length|]. split.
  - apply Forall_forall. intros saved Hin.
    change (saved ∈ (λ x, (x, color)) <$> Py.split keyword output) in Hin.
    apply list_elem_of_fmap in Hin as (x & -> & Hx). split; [done|].
    pose proof (split_clean keyword output) as Hclean.
    by eapply Forall_forall in Hclean.
  - by rewrite saved_pairs_fst, join_with_split.
Qed.

Lemma add_saves_substrings_witness :
  (0 < _maxsize (created 3 5) ∧ 0 < _maxlines (created 3 5)) ∧
  ∃ self' news,
    _ConsoleOutput (Some hello_world) red "add" false (created 3 5) = (self', Ok ()) ∧
    _savedlines self' = _savedlines (created 3 5) ++ news ∧
    length news = S (Py.count keyword hello_world) ∧
    Forall (λ saved, saved.2 = red ∧ Py.count keyword saved.1 = 0%nat) news ∧
    PyLib.join_with keyword news.*1 = hello_world.
Proof.
  split; [split; reflexivity|].
  apply (add_saves_substrings (created 3 5) hello_world red false); reflexivity.
Defined.

(** X9: with a negative width and no saved line yet, the output of a
    text in mode ['add'] returns, whatever the number of rows, but what
    it saves is one entry with the empty text for each sub-string: the
    characters of the output are lost. *)
Theorem add_negative_width self output color (CMD_type : bool) :
  _maxsize self < 0 → _savedlines self = [] →
  ∃ self',
    _ConsoleOutput (Some output) color "add" CMD_type self = (self', Ok ()) ∧
    _savedlines self' = replicate (S (Py.count keyword output)) ("", color).
Proof.
  intros Hm Hnil.
  destruct (history_lines_total (_maxsize self) 0 (_savedlines self)) as [ls Hls];
    [by right|].
  set (s0 := set_visible_lines (window ls (_maxlines self) 0) self).
  set (s1 := if CMD_type then set_stdout (stdout self ++ [output]) s0 else s0).
  assert (_maxsize s1 = _maxsize self) as Hm1 by (by destruct CMD_type).
  assert (_savedlines s1 = _savedlines self) as Hs1 by (by destruct CMD_type).
  unfold _ConsoleOutput.
  erewrite bind_ok; [|by apply call_redistribute_run]. fold s0.
  erewrite (bind_ok _ _ s0 s1 ()); [|by destruct CMD_type].
  rewrite bind_attr, Hm1, wrap_chunks, bind_eval by lia.
  change (String.eqb "add" "add") with true. cbv iota.
  assert (map (chunks (_maxsize self)) (Py.split keyword output)
          = replicate (S (Py.count keyword output)) []) as ->.
  { rewrite <- split_length.
    induction (Py.split keyword output) as [|x l IH]; [done|].
    simpl. by rewrite chunks_negative, IH. }
  rewrite add_entries_nil. eexists. split; [reflexivity|]. simpl.
  by rewrite Hs1, Hnil.
Qed.

Lemma add_negative_width_witness :
  (_maxsize (created (-1) 5) < 0 ∧ _savedlines (created (-1) 5) = []) ∧
  ∃ self',
    _ConsoleOutput (Some hello_world) red "add" false (created (-1) 5) = (self', Ok ()) ∧
    _savedlines self' = replicate (S (Py.count keyword hello_world)) ("", red).
Proof.
  split; [split; reflexivity|].
  apply (add_negative_width (created (-1) 5) hello_world red false); reflexivity.
Defined.

(** ** What [_ConsoleOutput] leaves alone *)

Section output_frame.
Context {X : Type} (π : Console → X).
Hypothesis lines_only : ∀ l self, π (set_visible_lines l self) = π self.
Hypothesis saved_only : ∀ l self, π (set_savedlines l self) = π self.
Hypothesis stdout_only : ∀ l self, π (set_stdout l self) = π self.

Lemma keeps_read_line {A} (x : Z) (f : OnscreenLine → A) : keeps π (read_line x f).
Proof.
  unfold read_line.
  apply keeps_bind; [apply keeps_attr|]. intros lines.
  apply keeps_bind; [apply keeps_eval|]. intros o. apply keeps_ret.
Qed.

Lemma keeps_shift (x : Z) : keeps π (shift x).
Proof.
  unfold shift.
  repeat (apply keeps_bind;
          [first [apply keeps_read_line | by apply keeps_write_line]|intros ?]).
  by apply keeps_write_line.
Qed.

Lemma keeps_add_segment color (discretized : list string) (i : Z) :
  keeps π (add_segment color discretized i).
Proof.
  unfold add_segment.
  apply keeps_bind; [apply keeps_attr|]. intros maxlines.
  apply keeps_bind; [apply keeps_eval|]. intros xs.
  apply keeps_bind; [apply keeps_for, keeps_shift|]. intros _.
  apply keeps_bind; [apply keeps_eval|]. intros d.
  apply keeps_bind; [by apply keeps_write_line|]. intros _.
  apply keeps_bind; [by apply keeps_write_line|]. intros _.
  apply keeps_bind; [apply keeps_attr|]. intros saved.
  apply keeps_bind; [by apply keeps_write_line|]. intros _.
  apply keeps_bind; [apply keeps_eval|]. intros ts.
  apply keeps_bind; [apply keeps_eval|]. intros previous.
  apply keeps_bind; [apply keeps_eval|]. intros d'.
  by apply keeps_write_line.
Qed.

Lemma keeps_add_entry color (discretized : list string) :
  keeps π (add_entry color discretized).
Proof.
  unfold add_entry.
  apply keeps_bind; [apply keeps_attr|]. intros saved.
  apply keeps_bind; [by apply keeps_update|]. intros _.
  apply keeps_bind; [apply keeps_eval|]. intros indices.
  apply keeps_for, keeps_add_segment.
Qed.

Lemma keeps_ConsoleOutput output color mode (CMD_type : bool) :
  keeps π (_ConsoleOutput output color mode CMD_type).
Proof.
  unfold _ConsoleOutput.
  apply keeps_bind; [by apply keeps_call_redistribute|]. intros _.
  destruct output as [output|]; [|apply keeps_ret].
  apply keeps_bind.
  { destruct CMD_type; [|apply keeps_ret].
    apply keeps_bind; [apply keeps_attr|]. intros out. by apply keeps_update. }
  intros _.
  apply keeps_bind; [apply keeps_attr|]. intros maxsize.
  apply keeps_bind; [apply keeps_eval|]. intros text.
  destruct (String.eqb mode "add"); [apply keeps_for, keeps_add_entry|].
  destruct (String.eqb mode "edit"); [|apply keeps_ret].
  apply keeps_bind; [apply keeps_attr|]. intros saved.
  apply keeps_bind; [apply keeps_eval|]. intros saved'.
  apply keeps_bind; [by apply keeps_update|]. intros _.
  apply keeps_for. intros d. by apply keeps_edit_entry.
Qed.

End output_frame.

(** X10: whatever its arguments, and whether it returns or raises,
    [_ConsoleOutput] changes neither the wrap width, nor the number of
    rows, nor the input history and its cursor, nor the text of the
    entry, nor the scroll index: an output made while the view is
    scrolled leaves the scroll index where it was. *)
Theorem ConsoleOutput_touches_output_only self output color mode (CMD_type : bool) :
  let self' := (_ConsoleOutput output color mode CMD_type self).1 in
  _maxsize self' = _maxsize self ∧
  _maxlines self' = _maxlines self ∧
  _inputlines self' = _inputlines self ∧
  _callbackindex self' = _callbackindex self ∧
  entry self' = entry self ∧
  _scrollingindex self' = _scrollingindex self.
Proof.
  repeat split.
  - by apply (keeps_ConsoleOutput _maxsize).
  - by apply (keeps_ConsoleOutput _maxlines).
  - by apply (keeps_ConsoleOutput _inputlines).
  - by apply (keeps_ConsoleOutput _callbackindex).
  - by apply (keeps_ConsoleOutput entry).
  - by apply (keeps_ConsoleOutput _scrollingindex).
Qed.

(** ** The slots written in mode ['edit'] *)

Section edit_slots.
Implicit Types (self : Console) (d : list string) (color : Vec4).

(** The three attributes that mode ['edit'] writes into a slot. *)
Lemma edit_segments_run self color d (a c : nat) :
  (a + c ≤ length d)%nat →
  (length d ≤ length (_visible_lines self))%nat →
  for_ (map Z.of_nat (seq a c))
    (λ i,
       seg ← eval (Py.getitem d (Z.of_nat (length d) - i - 1));
       write_line i (set_text seg);;
       write_line i (set_fg color);;
       saved ← attr _savedlines;
       write_line i (set_lineIndex (Some (Z.of_nat (length saved) - 1)))) self =
    (set_visible_lines
       (take a (_visible_lines self)
        ++ zip_with (λ seg o,
                       set_lineIndex (Some (Z.of_nat (length (_savedlines self)) - 1))
                         (set_fg color (set_text seg o)))
                    (take c (drop a (reverse d))) (drop a (_visible_lines self))
        ++ drop (a + c) (_visible_lines self)) self, Ok ()).
Proof.
  revert a self; induction c as [|c IH]; intros a self Hc Hlen.
  - simpl. rewrite Nat.add_0_r, take_drop. by rewrite set_visible_lines_same.
  - destruct (lookup_lt_is_Some_2 (reverse d) a) as [seg Hseg];
      [rewrite length_reverse; lia|].
    destruct (lookup_lt_is_Some_2 (_visible_lines self) a ltac:(lia)) as [o Ho].
    cbn [seq map for_].
    assert (Py.getitem d (Z.of_nat (length d) - Z.of_nat a - 1) = Ok seg) as Hget.
    { apply reverse_lookup_Some in Hseg as [Hseg _].
      replace (Z.of_nat (length d) - Z.of_nat a - 1)
        with (Z.of_nat (length d - S a)) by lia.
      by apply getitem_of_nat. }
    erewrite bind_ok; cycle 1.
    { rewrite Hget, bind_eval.
      erewrite bind_ok; [|by apply write_line_nat].
      erewrite bind_ok;
        [|apply write_line_nat; simpl; apply list_lookup_insert_eq;
          by eapply lookup_lt_Some].
      rewrite bind_attr.
      apply write_line_nat. simpl. apply list_lookup_insert_eq.
      rewrite length_insert. by eapply lookup_lt_Some. }
    rewrite IH by (simpl; rewrite ?length_insert; lia).
    simpl. rewrite !list_insert_insert_eq.
    unfold set_visible_lines. simpl. do 2 f_equal.
    rewrite (take_S_r _ _ _ (list_lookup_insert_eq _ _ _ (lookup_lt_Some _ _ _ Ho))).
    rewrite take_insert_ge, drop_insert_lt by lia.
    rewrite (drop_S _ _ _ Hseg), (drop_S _ _ _ Ho). cbn [take zip_with].
    rewrite <- app_assoc. cbn [app].
    rewrite drop_insert_lt by lia.
    by replace (a + S c)%nat with (S (a + c))%nat by lia.
Qed.

Lemma edit_entry_run self color d :
  (length d ≤ length (_visible_lines self))%nat →
  edit_entry color d self =
    (set_visible_lines
       (zip_with (λ seg o,
                    set_lineIndex (Some (Z.of_nat (length (_savedlines self)) - 1))
                      (set_fg color (set_text seg o)))
                 (reverse d) (_visible_lines self)
        ++ drop (length d) (_visible_lines self)) self, Ok ()).
Proof.
  intros Hlen. unfold edit_entry. rewrite range_upto, bind_eval.
  rewrite edit_segments_run by lia.
  rewrite take_0, !drop_0, take_ge by (by rewrite length_reverse).
  reflexivity.
Qed.

Lemma zip_with_charInterval (f : string → OnscreenLine → OnscreenLine)
    (segs : list string) (lines : list OnscreenLine) :
  (∀ seg o, charInterval (f seg o) = charInterval o) →
  (length segs ≤ length lines)%nat →
  map charInterval (zip_with f segs lines ++ drop (length segs) lines)
    = map charInterval lines.
Proof.
  intros Hf. revert lines; induction segs as [|seg segs IH]; intros lines Hlen.
  - by rewrite drop_0.
  - destruct lines as [|o lines]; [simpl in Hlen; lia|].
    simpl. rewrite Hf. f_equal. apply IH. simpl in Hlen. lia.
Qed.

End edit_slots.

(** X11: in mode ['edit'], for a positive width, a history that is not
    empty and a text without newline whose [n] chunks fit in the rows,
    the call returns; of the lines that [redistribute] has just drawn,
    slots 0 to [n-1] take the chunks in reverse order (the last chunk
    in slot 0), the colour and the index of the last saved entry, and
    the slots from [n] on are kept.  No [charInterval] is written: every
    slot keeps the interval that [redistribute] gave it. *)
Theorem edit_writes_slots self output color (CMD_type : bool) older last :
  0 < _maxsize self →
  _savedlines self = older ++ [last] →
  Py.count keyword output = 0%nat →
  Z.of_nat (length (chunks (_maxsize self) output)) ≤ _maxlines self →
  ∃ self' shown,
    redistribute (_savedlines self) (_maxsize self) (_maxlines self)
      (_visible_lines self) = Ok shown ∧
    _ConsoleOutput (Some output) color "edit" CMD_type self = (self', Ok ()) ∧
    _visible_lines self' =
      zip_with (λ seg o, set_lineIndex (Some (Z.of_nat (length older)))
                           (set_fg color (set_text seg o)))
               (reverse (chunks (_maxsize self) output)) shown
      ++ drop (length (chunks (_maxsize self) output)) shown ∧
    map charInterval (_visible_lines self') = map charInterval shown.
Proof.
  intros Hm Hsaved Hclean Hfit.
  destruct (history_lines_total (_maxsize self) 0 (_savedlines self)) as [ls Hls];
    [lia|].
  set (shown := window ls (_maxlines self) 0).
  set (s0 := set_visible_lines shown self).
  set (s1 := if CMD_type then set_stdout (stdout self ++ [output]) s0 else s0).
  assert (_maxsize s1 = _maxsize self) as Hm1 by (by destruct CMD_type).
  assert (_savedlines s1 = _savedlines self) as Hs1 by (by destruct CMD_type).
  set (s2 := set_savedlines (older ++ [(output, color)]) s1).
  assert (_visible_lines s2 = shown) as Hv2 by (by destruct CMD_type).
  assert (Z.of_nat (length (_savedlines s2)) - 1 = Z.of_nat (length older)) as Hidx.
  { unfold s2. simpl. rewrite length_app. simpl. lia. }
  assert (length (chunks (_maxsize self) output) ≤ length shown)%nat as Hlen.
  { unfold shown. rewrite window_length. lia. }
  eexists _, shown. split; [unfold redistribute; by rewrite Hls|].
  assert (_ConsoleOutput (Some output) color "edit" CMD_type self =
          edit_entry color (chunks (_maxsize self) output) s2) as ->.
  { unfold _ConsoleOutput.
    erewrite bind_ok; [|by apply call_redistribute_run]. fold shown s0.
    erewrite (bind_ok _ _ s0 s1 ()); [|by destruct CMD_type].
    rewrite bind_attr, Hm1, wrap_chunks, bind_eval by lia.
    change (String.eqb "edit" "add") with false.
    change (String.eqb "edit" "edit") with true. cbv iota.
    rewrite bind_attr, Hs1, Hsaved, setitem_last, bind_eval.
    erewrite bind_ok; [|reflexivity]. fold s2.
    rewrite (split_none _ _ Hclean). cbn [map for_].
    unfold mbind at 1, method_bind at 1.
    by destruct (edit_entry _ _ s2) as [? [[]|?]]. }
  rewrite edit_entry_run by (by rewrite Hv2).
  rewrite Hv2, Hidx. split; [reflexivity|]. split; [reflexivity|].
  cbn [_visible_lines set_visible_lines].
  rewrite <- (length_reverse (chunks (_maxsize self) output)).
  apply zip_with_charInterval; [done|by rewrite length_reverse].
Qed.

Lemma edit_writes_slots_witness :
  (0 < _maxsize two_entries ∧
   _savedlines two_entries = [("abcdefgh", white)] ++ [("xy", red)] ∧
   Py.count keyword "xyzw" = 0%nat ∧
   Z.of_nat (length (chunks (_maxsize two_entries) "xyzw")) ≤ _maxlines two_entries) ∧
  ∃ self' shown,
    redistribute (_savedlines two_entries) (_maxsize two_entries) (_maxlines two_entries)
      (_visible_lines two_entries) = Ok shown ∧
    _ConsoleOutput (Some "xyzw") red "edit" false two_entries = (self', Ok ()) ∧
    _visible_lines self' =
      zip_with (λ seg o, set_lineIndex (Some (Z.of_nat (length [("abcdefgh", white)])))
                           (set_fg red (set_text seg o)))
               (reverse (chunks (_maxsize two_entries) "xyzw")) shown
      ++ drop (length (chunks (_maxsize two_entries) "xyzw")) shown ∧
    map charInterval (_visible_lines self') = map charInterval shown.
Proof.
  split.
  - split; [reflexivity|]. split; [reflexivity|]. split; [reflexivity|].
    vm_compute. discriminate.
  - apply (edit_writes_slots two_entries "xyzw" red false [("abcdefgh", white)] ("xy", red));
      [reflexivity|reflexivity|reflexivity|vm_compute; discriminate].
Defined.

(** ** The command history *)

Section recall.
Implicit Types (self : Console) (k c : nat).

(** What the up key does, in terms of the state. *)
Lemma callBack_up self :
  _callBack true self =
    (if _callbackindex self <? Z.of_nat (length (_inputlines self)) then
       match Py.getitem (reverse (_inputlines self)) (_callbackindex self + 1) with
       | Ok s => set_entry s (set_callbackindex (_callbackindex self + 1) self)
       | Raise _ => set_callbackindex (_callbackindex self + 1) self
       end
     else self, Ok ()).
Proof.
  unfold _callBack. rewrite bind_attr. unfold try_pass. f_equal.
  rewrite bind_attr, length_reverse.
  destruct (_callbackindex self <? Z.of_nat (length (_inputlines self))); [|done].
  erewrite bind_ok; [|reflexivity]. rewrite bind_attr, bind_eval.
  simpl. by destruct (Py.getitem _ _).
Qed.

(** What the down key does, in terms of the state. *)
Lemma callBack_down self :
  _callBack false self =
    (if 0 <=? _callbackindex self then
       match Py.getitem ("" :: reverse (_inputlines self)) (_callbackindex self - 1) with
       | Ok s => set_entry s (set_callbackindex (_callbackindex self - 1) self)
       | Raise _ => set_callbackindex (_callbackindex self - 1) self
       end
     else self, Ok ()).
Proof.
  unfold _callBack. rewrite bind_attr. unfold try_pass. f_equal.
  rewrite bind_attr.
  destruct (0 <=? _callbackindex self); [|done].
  erewrite bind_ok; [|reflexivity]. rewrite bind_attr, bind_eval.
  simpl. by destruct (Py.getitem _ _).
Qed.

(** One press of the up key while an older command exists. *)
Lemma callBack_up_step self c x :
  _callbackindex self = Z.of_nat c - 1 →
  reverse (_inputlines self) !! c = Some x →
  _callBack true self = (set_entry x (set_callbackindex (Z.of_nat c) self), Ok ()).
Proof.
  intros Hidx Hx. rewrite callBack_up, Hidx.
  pose proof (lookup_lt_Some _ _ _ Hx) as Hlt. rewrite length_reverse in Hlt.
  destruct (Z.ltb_spec (Z.of_nat c - 1) (Z.of_nat (length (_inputlines self)))); [|lia].
  replace (Z.of_nat c - 1 + 1) with (Z.of_nat c) by lia.
  by rewrite (getitem_of_nat _ _ _ Hx).
Qed.

Lemma callBack_up_presses k self c x :
  _callbackindex self = Z.of_nat c - 1 →
  reverse (_inputlines self) !! (c + k)%nat = Some x →
  for_ (replicate (S k) true) _callBack self =
    (set_entry x (set_callbackindex (Z.of_nat (c + k)) self), Ok ()).
Proof.
  revert self c; induction k as [|k IH]; intros self c Hidx Hx.
  - rewrite Nat.add_0_r in *. cbn [replicate for_].
    erewrite bind_ok; [|by apply callBack_up_step]. reflexivity.
  - destruct (lookup_lt_is_Some_2 (reverse (_inputlines self)) c) as [y Hy].
    { apply lookup_lt_Some in Hx. lia. }
    change (replicate (S (S k)) true) with (true :: replicate (S k) true).
    cbn [for_]. erewrite bind_ok; [|by apply callBack_up_step].
    rewrite (IH _ (S c)).
    + replace (S c + k)%nat with (c + S k)%nat by lia. reflexivity.
    + simpl. lia.
    + simpl. by replace (S (c + k)) with (c + S k)%nat by lia.
Qed.

(** The up key with the cursor past the oldest command. *)
Lemma callBack_up_parked (n : nat) self :
  Z.of_nat (length (_inputlines self)) ≤ _callbackindex self →
  for_ (replicate n true) _callBack self = (self, Ok ()).
Proof.
  intros Hidx. induction n as [|n IH]; [done|].
  cbn [replicate for_]. erewrite bind_ok; [exact IH|].
  rewrite callBack_up.
  by destruct (Z.ltb_spec (_callbackindex self) (Z.of_nat (length (_inputlines self))));
    [lia|].
Qed.

End recall.

(** X12: [_callBack] never raises, in either direction and from any
    state; it changes nothing but the cursor and the text of the
    entry; and a cursor between -1 and the number of submitted
    commands stays between these bounds. *)
Theorem callBack_safe (key : bool) self :
  ∃ self',
    _callBack key self = (self', Ok ()) ∧
    _inputlines self' = _inputlines self ∧
    _savedlines self' = _savedlines self ∧
    _visible_lines self' = _visible_lines self ∧
    _scrollingindex self' = _scrollingindex self ∧
    (-1 ≤ _callbackindex self ≤ Z.of_nat (length (_inputlines self)) →
     -1 ≤ _callbackindex self' ≤ Z.of_nat (length (_inputlines self))).
Proof.
  destruct key.
  - rewrite callBack_up. eexists. split; [reflexivity|].
    destruct (Z.ltb_spec (_callbackindex self) (Z.of_nat (length (_inputlines self))));
      [|repeat split; try done; lia].
    destruct (Py.getitem _ _); repeat split; try done; simpl; lia.
  - rewrite callBack_down. eexists. split; [reflexivity|].
    destruct (Z.leb_spec 0 (_callbackindex self)); [|repeat split; try done; lia].
    destruct (Py.getitem _ _); repeat split; try done; simpl; lia.
Qed.

(** From the cursor at -1, as many presses of the up key as there are
    commands reach the oldest one. *)
Lemma callBack_up_oldest self (x : string) newer :
  _inputlines self = x :: newer →
  _callbackindex self = -1 →
  for_ (replicate (S (length newer)) true) _callBack self =
    (set_entry x (set_callbackindex (Z.of_nat (length newer)) self), Ok ()).
Proof.
  intros Hin Hidx.
  apply (callBack_up_presses (length newer) self 0 x); [by rewrite Hidx|].
  apply reverse_lookup_Some. rewrite Hin. simpl. split; [|lia].
  by rewrite Nat.sub_diag.
Qed.

(** X13: with the cursor at -1, as [__process] leaves it, pressing the
    up key [n+1] times shows in the entry the command that has [n]
    newer commands after it in the input history, and leaves the
    cursor at [n]. *)
Theorem callBack_up_recalls self older (x : string) newer :
  _inputlines self = older ++ x :: newer →
  _callbackindex self = -1 →
  for_ (replicate (S (length newer)) true) _callBack self =
    (set_entry x (set_callbackindex (Z.of_nat (length newer)) self), Ok ()).
Proof.
  intros Hin Hidx.
  apply (callBack_up_presses (length newer) self 0 x); [by rewrite Hidx|].
  apply reverse_lookup_Some. rewrite Hin, length_app. simpl. split; [|lia].
  replace (length older + S (length newer) - S (length newer))%nat
    with (length older + 0)%nat by lia.
  by rewrite lookup_app_r, Nat.add_0_r, Nat.sub_diag by lia.
Qed.

Lemma callBack_up_recalls_witness :
  (_inputlines (browsing ["ls"; "pwd"; "cd"] (-1) "") = ["ls"] ++ "pwd" :: ["cd"] ∧
   _callbackindex (browsing ["ls"; "pwd"; "cd"] (-1) "") = -1) ∧
  for_ (replicate (S (length ["cd"])) true) _callBack
    (browsing ["ls"; "pwd"; "cd"] (-1) "") =
    (set_entry "pwd" (set_callbackindex (Z.of_nat (length ["cd"]))
                        (browsing ["ls"; "pwd"; "cd"] (-1) "")), Ok ()).
Proof.
  split; [split; reflexivity|].
  apply (callBack_up_recalls (browsing ["ls"; "pwd"; "cd"] (-1) "") ["ls"] "pwd" ["cd"]);
    reflexivity.
Defined.

(** X14: with the cursor at -1 and a first submitted command [x],
    pressing the up key more often than there are commands parks the
    cursor at the number of commands, one past the last position, and
    leaves [x], the oldest command, in the entry. *)
Theorem callBack_up_saturates self (x : string) newer (n : nat) :
  _inputlines self = x :: newer →
  _callbackindex self = -1 →
  (S (length newer) < n)%nat →
  for_ (replicate n true) _callBack self =
    (set_entry x (set_callbackindex (Z.of_nat (S (length newer))) self), Ok ()).
Proof.
  intros Hin Hidx Hn.
  replace n with (S (length newer) + S (n - S (S (length newer))))%nat by lia.
  rewrite replicate_add.
  erewrite for_app; [|by apply callBack_up_oldest].
  cbn [replicate for_].
  erewrite bind_ok; cycle 1.
  { rewrite callBack_up. simpl. rewrite Hin. simpl length.
    destruct (Z.ltb_spec (Z.of_nat (length newer)) (Z.of_nat (S (length newer)))); [|lia].
    replace (Z.of_nat (length newer) + 1) with (Z.of_nat (S (length newer))) by lia.
    unfold Py.getitem. rewrite length_reverse. simpl length.
    assert (Py.position (S (length newer)) (Z.of_nat (S (length newer))) = None) as ->.
    { unfold Py.position.
      destruct (Z.ltb_spec (Z.of_nat (S (length newer))) 0); [lia|].
      destruct (Z.ltb_spec (Z.of_nat (S (length newer))) (Z.of_nat (S (length newer))));
        [lia|]. by rewrite andb_false_r. }
    reflexivity. }
  rewrite callBack_up_parked; [reflexivity|].
  simpl. rewrite Hin. simpl. lia.
Qed.

Lemma callBack_up_saturates_witness :
  (_inputlines (browsing ["ls"; "pwd"] (-1) "") = "ls" :: ["pwd"] ∧
   _callbackindex (browsing ["ls"; "pwd"] (-1) "") = -1 ∧
   (S (length ["pwd"]) < 5)%nat) ∧
  for_ (replicate 5 true) _callBack (browsing ["ls"; "pwd"] (-1) "") =
    (set_entry "ls" (set_callbackindex (Z.of_nat (S (length ["pwd"])))
                       (browsing ["ls"; "pwd"] (-1) "")), Ok ()).
Proof.
  split; [split; [reflexivity|]; split; [reflexivity|simpl; lia]|].
  apply (callBack_up_saturates (browsing ["ls"; "pwd"] (-1) "") "ls" ["pwd"] 5);
    [reflexivity|reflexivity|simpl; lia].
Defined.

(** ** Switching the targeted console *)

Section switching.
Implicit Types (self : Prompt) (keys : list string) (d : list (string * string)).

(** With distinct elements, [index] finds the position of each. *)
Lemma index_lookup keys (n : nat) (x : string) :
  NoDup keys → keys !! n = Some x → PyLib.index x keys = Some n.
Proof.
  intros Hnd. revert n; induction Hnd as [|y keys Hy Hnd IH]; intros n Hn; [done|].
  simpl. destruct n as [|n]; simpl in Hn.
  - injection Hn as ->. by rewrite String.eqb_refl.
  - destruct (String.eqb_spec y x) as [->|_].
    + destruct Hy. by eapply list_elem_of_lookup_2.
    + by rewrite (IH n Hn).
Qed.

Lemma index_missing keys (x : string) : x ∉ keys → PyLib.index x keys = None.
Proof.
  induction keys as [|y keys IH]; [done|]. intros Hx. simpl.
  destruct (String.eqb_spec y x) as [->|_]; [destruct Hx; by left|].
  rewrite IH; [done|]. intros H. apply Hx. by right.
Qed.

(** With distinct keys, the dictionary gives the value stored with
    each key. *)
Lemma dict_get_lookup d (n : nat) (k v : string) :
  NoDup d.*1 → d !! n = Some (k, v) → PyLib.dict_get d k = Some v.
Proof.
  revert n; induction d as [|[k' v'] d IH]; intros n Hnd Hn; [done|].
  cbn in Hnd. apply NoDup_cons in Hnd as [Hk' Hnd].
  simpl. destruct n as [|n]; simpl in Hn.
  - injection Hn as -> ->. by rewrite String.eqb_refl.
  - destruct (String.eqb_spec k' k) as [->|_]; [|by eapply IH].
    destruct Hk'. apply list_elem_of_fmap. exists (k, v).
    split; [done|]. by eapply list_elem_of_lookup_2.
Qed.

(** One press, from the key at position [n]. *)
Lemma switch_step self (n : nat) (k v : string) :
  NoDup (_consoles self).*1 →
  (_consoles self).*1 !! n = Some (_indicator self) →
  _consoles self !! (S n `mod` length (_consoles self))%nat = Some (k, v) →
  _switch_adr self = (set_info ("targeting: " +:+ v) (set_indicator k self), Returned).
Proof.
  intros Hnd Hn Hnext. unfold _switch_adr.
  rewrite (index_lookup _ _ _ Hnd Hn).
  pose proof (lookup_lt_Some _ _ _ Hn) as Hlt.
  assert (length (_consoles self).*1 = length (_consoles self)) as Hlen
    by apply length_fmap.
  rewrite Hlen in *.
  assert ((if Z.of_nat n =? Z.of_nat (length (_consoles self)) - 1 then 0
           else Z.of_nat n + 1)
          = Z.of_nat (S n `mod` length (_consoles self))) as ->.
  { destruct (Z.eqb_spec (Z.of_nat n) (Z.of_nat (length (_consoles self)) - 1)).
    - replace (S n) with (length (_consoles self)) by lia.
      by rewrite Nat.Div0.mod_same.
    - rewrite Nat.mod_small by lia. lia. }
  assert ((_consoles self).*1 !! (S n `mod` length (_consoles self))%nat = Some k) as Hk.
  { by rewrite list_lookup_fmap, Hnext. }
  rewrite (getitem_of_nat _ _ _ Hk). simpl.
  by rewrite (dict_get_lookup _ _ _ _ Hnd Hnext).
Qed.

Lemma switch_steps (j : nat) self (n : nat) :
  NoDup (_consoles self).*1 →
  (_consoles self).*1 !! n = Some (_indicator self) →
  ∃ k v,
    _consoles self !! ((n + S j) `mod` length (_consoles self))%nat = Some (k, v) ∧
    switch_times (S j) self =
      (set_info ("targeting: " +:+ v) (set_indicator k self), Returned).
Proof.
  revert self n; induction j as [|j IH]; intros self n Hnd Hn.
  - pose proof (lookup_lt_Some _ _ _ Hn) as Hlt. rewrite length_fmap in Hlt.
    destruct (lookup_lt_is_Some_2 (_consoles self)
                ((n + 1) `mod` length (_consoles self))%nat) as [[k v] Hkv].
    { apply Nat.mod_upper_bound. lia. }
    exists k, v. split; [done|]. simpl.
    rewrite (switch_step self n k v); [done|done|done|].
    by replace (S n) with (n + 1)%nat by lia.
  - pose proof (lookup_lt_Some _ _ _ Hn) as Hlt. rewrite length_fmap in Hlt.
    destruct (lookup_lt_is_Some_2 (_consoles self)
                (S n `mod` length (_consoles self))%nat) as [[k1 v1] Hkv1].
    { apply Nat.mod_upper_bound. lia. }
    destruct (IH (set_info ("targeting: " +:+ v1) (set_indicator k1 self))
                (S n `mod` length (_consoles self))%nat) as (k & v & Hkv & Hrun).
    { done. }
    { simpl. by rewrite list_lookup_fmap, Hkv1. }
    simpl _consoles in Hkv.
    exists k, v. split.
    + rewrite <- Hkv. f_equal.
      rewrite Nat.Div0.add_mod_idemp_l. f_equal. lia.
    + change (switch_times (S (S j)) self)
        with (match _switch_adr self with
              | (self', Returned) => switch_times (S j) self'
              | r => r
              end).
      rewrite (switch_step self n k1 v1) by done. by rewrite Hrun.
Qed.

End switching.

(** X15: when the keys of [_consoles] are distinct and the indicator
    shows the key at position [n], [_switch_adr] returns with the
    indicator on the key at position [n+1], or on the first key after
    the last one, and [_info] reads ["targeting: "] followed by the
    value stored with that key; when the indicator shows no key of the
    dictionary, the method raises [ValueError] and changes nothing. *)
Theorem switch_adr_next self :
  NoDup (_consoles self).*1 →
  (∀ n : nat, (_consoles self).*1 !! n = Some (_indicator self) →
     ∃ k v,
       _consoles self !! (S n `mod` length (_consoles self))%nat = Some (k, v) ∧
       _switch_adr self =
         (set_info ("targeting: " +:+ v) (set_indicator k self), Returned)) ∧
  (_indicator self ∉ (_consoles self).*1 →
   _switch_adr self = (self, Raised ValueError)).
Proof.
  intros Hnd. split.
  - intros n Hn. destruct (switch_steps 0 self n Hnd Hn) as (k & v & Hkv & Hrun).
    exists k, v. split; [by replace (S n) with (n + 1)%nat by lia|].
    simpl in Hrun. by destruct (_switch_adr self) as [? []].
  - intros Hmiss. unfold _switch_adr. by rewrite index_missing.
Qed.

(** X16: when the keys of [_consoles] are distinct and the indicator
    shows one of them, as many presses as there are keys bring the
    indicator back to the same key, with [_info] naming its value: the
    prompt cycles through all the consoles. *)
Theorem switch_adr_cycle self :
  NoDup (_consoles self).*1 →
  _indicator self ∈ (_consoles self).*1 →
  ∃ v,
    PyLib.dict_get (_consoles self) (_indicator self) = Some v ∧
    switch_times (length (_consoles self)) self =
      (set_info ("targeting: " +:+ v) self, Returned).
Proof.
  intros Hnd Hin. apply list_elem_of_lookup_1 in Hin as [n Hn].
  pose proof (lookup_lt_Some _ _ _ Hn) as Hlt. rewrite length_fmap in Hlt.
  destruct (length (_consoles self)) as [|j] eqn:Hlen; [lia|].
  destruct (switch_steps j self n Hnd Hn) as (k & v & Hkv & Hrun).
  rewrite Hlen in Hkv.
  replace ((n + S j) `mod` S j)%nat with n in Hkv; cycle 1.
  { rewrite <- (Nat.Div0.add_mod_idemp_r n (S j)), Nat.Div0.mod_same, Nat.add_0_r.
    by rewrite Nat.mod_small. }
  assert (k = _indicator self) as ->.
  { rewrite list_lookup_fmap, Hkv in Hn. simpl in Hn. by injection Hn. }
  exists v. split; [by eapply dict_get_lookup|].
  rewrite Hrun. by destruct self.
Qed.

Lemma switch_adr_next_witness :
  NoDup (_consoles (created_prompt "1.0" "3.8.1")).*1 ∧
  (∀ n : nat,
     (_consoles (created_prompt "1.0" "3.8.1")).*1 !! n
       = Some (_indicator (created_prompt "1.0" "3.8.1")) →
     ∃ k v,
       _consoles (created_prompt "1.0" "3.8.1")
         !! (S n `mod` length (_consoles (created_prompt "1.0" "3.8.1")))%nat
         = Some (k, v) ∧
       _switch_adr (created_prompt "1.0" "3.8.1") =
         (set_info ("targeting: " +:+ v)
            (set_indicator k (created_prompt "1.0" "3.8.1")), Returned)) ∧
  (_indicator (created_prompt "1.0" "3.8.1")
     ∉ (_consoles (created_prompt "1.0" "3.8.1")).*1 →
   _switch_adr (created_prompt "1.0" "3.8.1")
     = (created_prompt "1.0" "3.8.1", Raised ValueError)).
Proof.
  split; [apply (bool_decide_unpack _); by vm_compute|].
  apply (switch_adr_next (created_prompt "1.0" "3.8.1")).
  apply (bool_decide_unpack _). by vm_compute.
Defined.

Lemma switch_adr_cycle_witness :
  (NoDup (_consoles (created_prompt "1.0" "3.8.1")).*1 ∧
   _indicator (created_prompt "1.0" "3.8.1")
     ∈ (_consoles (created_prompt "1.0" "3.8.1")).*1) ∧
  ∃ v,
    PyLib.dict_get (_consoles (created_prompt "1.0" "3.8.1"))
      (_indicator (created_prompt "1.0" "3.8.1")) = Some v ∧
    switch_times (length (_consoles (created_prompt "1.0" "3.8.1")))
      (created_prompt "1.0" "3.8.1") =
      (set_info ("targeting: " +:+ v) (created_prompt "1.0" "3.8.1"), Returned).
Proof.
  split.
  - split; apply (bool_decide_unpack _); by vm_compute.
  - apply (switch_adr_cycle (created_prompt "1.0" "3.8.1"));
      apply (bool_decide_unpack _); by vm_compute.
Defined.

(** ** Submitting a command *)

Section submitting.
Implicit Types (self : Console) (data indicator : string).

(** One output in mode ['add'] without a copy on the standard output:
    the state it leaves, up to the lines it draws; these are the lines
    of the redistribution when no sub-string of the output is empty. *)
Lemma ConsoleOutput_add_plain self (output : string) color :
  0 < _maxsize self → 0 < _maxlines self →
  ∃ lines,
    _ConsoleOutput (Some output) color "add" false self =
      (set_visible_lines lines
         (set_savedlines
            (_savedlines self ++ map (λ x, (x, color)) (Py.split keyword output)) self),
       Ok ()) ∧
    (Forall (λ x, x ≠ "") (Py.split keyword output) →
     redistribute
       (_savedlines self ++ map (λ x, (x, color)) (Py.split keyword output))
       (_maxsize self) (_maxlines self) lines = Ok lines).
Proof.
  intros Hm Hl.
  destruct (ConsoleOutput_add_run self output color false Hm Hl)
    as (olds & Holds & Hrun).
  eexists. split; [exact Hrun|].
  intros Hne. unfold redistribute.
  erewrite history_lines_app; [done|exact Holds|].
  apply history_added; [done|apply split_clean|done].
Qed.

Lemma count_append c (s x : string) :
  Py.count c (s +:+ x) = (Py.count c s + Py.count c x)%nat.
Proof.
  induction s as [|a s IH]; [done|]. rewrite append_cons. simpl. rewrite IH. lia.
Qed.

Lemma len_nonempty data : data ≠ "" → (Py.len data =? 0) = false.
Proof.
  intros H. by destruct data.
Qed.

End submitting.

(** X17: for a positive width and a positive number of rows,
    [__process] does nothing at all with the empty string, not even
    calling a command processor; with any other data it resets the
    cursor of the input history to -1, appends the data to the input
    history, empties the entry, saves the line [" "] and then the
    sub-strings of the indicator followed by the data, redraws the
    lines (as [redistribute] does from the saved lines, when the
    indicator followed by the data has no empty sub-string), and only
    then hands the data to the processor that the indicator selects, or
    to none when the indicator is not one of the three prompts. *)
Theorem process_submits (py_process csl_process cmd_process : string → method unit)
    (indicator data : string) self :
  0 < _maxsize self → 0 < _maxlines self →
  (data = "" →
   __process py_process csl_process cmd_process indicator data self = (self, Ok ())) ∧
  (data ≠ "" →
   ∃ lines,
     let saved := _savedlines self ++ (" ", white)
                    :: map (λ x, (x, white)) (Py.split keyword (indicator +:+ data)) in
     let self1 :=
       set_visible_lines lines
         (set_savedlines saved
            (set_entry ""
               (set_inputlines (_inputlines self ++ [data])
                  (set_callbackindex (-1) self)))) in
     (Forall (λ x, x ≠ "") (Py.split keyword (indicator +:+ data)) →
      redistribute saved (_maxsize self) (_maxlines self) lines = Ok lines) ∧
     __process py_process csl_process cmd_process indicator data self =
       (if String.eqb indicator "pyt> " then py_process data
        else if String.eqb indicator "csl> " then csl_process data
        else if String.eqb indicator "os$> " then cmd_process data
        else mret ()) self1).
Proof.
  intros Hm Hl. split; [by intros ->|].
  intros Hdata. unfold __process. rewrite (len_nonempty _ Hdata).
  erewrite bind_ok; [|reflexivity]. rewrite bind_attr.
  erewrite bind_ok; [|reflexivity]. erewrite bind_ok; [|reflexivity].
  match goal with |- context [(_ConsoleOutput (Some " ") _ _ _ ≫= _) ?s] =>
    destruct (ConsoleOutput_add_plain s " " white) as (lines1 & Hrun1 & _);
      [exact Hm|exact Hl|] end.
  erewrite bind_ok; [|exact Hrun1].
  match goal with |- context [(_ConsoleOutput (Some (indicator +:+ data)) _ _ _ ≫= _) ?s] =>
    destruct (ConsoleOutput_add_plain s (indicator +:+ data) white)
      as (lines2 & Hrun2 & Hred2); [exact Hm|exact Hl|] end.
  erewrite bind_ok; [|exact Hrun2].
  exists lines2. cbn zeta. split.
  - intros Hne. specialize (Hred2 Hne).
    cbn [_savedlines _maxsize _maxlines set_visible_lines set_savedlines set_entry
         set_inputlines set_callbackindex] in Hred2.
    change (Py.split keyword " ") with [" "] in Hred2.
    by rewrite <- app_assoc in Hred2.
  - cbn [_savedlines _maxsize _maxlines set_visible_lines set_savedlines set_entry
         set_inputlines set_callbackindex].
    change (Py.split keyword " ") with [" "].
    unfold set_visible_lines, set_savedlines. simpl.
    by rewrite <- app_assoc.
Qed.

Lemma process_submits_witness :
  (0 < _maxsize (created 10 3) ∧ 0 < _maxlines (created 10 3)) ∧
  ("help" = "" →
   __process echo echo echo "csl> " "help" (created 10 3) = (created 10 3, Ok ())) ∧
  ("help" ≠ "" →
   ∃ lines,
     let saved := _savedlines (created 10 3) ++ (" ", white)
                    :: map (λ x, (x, white)) (Py.split keyword ("csl> " +:+ "help")) in
     let self1 :=
       set_visible_lines lines
         (set_savedlines saved
            (set_entry ""
               (set_inputlines (_inputlines (created 10 3) ++ ["help"])
                  (set_callbackindex (-1) (created 10 3))))) in
     (Forall (λ x : string, x ≠ "") (Py.split keyword ("csl> " +:+ "help")) →
      redistribute saved (_maxsize (created 10 3)) (_maxlines (created 10 3)) lines
        = Ok lines) ∧
     __process echo echo echo "csl> " "help" (created 10 3) =
       (if String.eqb "csl> " "pyt> " then echo "help"
        else if String.eqb "csl> " "csl> " then echo "help"
        else if String.eqb "csl> " "os$> " then echo "help"
        else mret ()) self1).
Proof.
  split; [split; reflexivity|].
  apply (process_submits echo echo echo "csl> " "help" (created 10 3)); reflexivity.
Defined.

(** X18: after [__process] has handled data other than the empty
    string, with command processors that leave the input history and
    its cursor alone, one press of the up key shows that data in the
    entry and puts the cursor at 0, whether the outputs and the
    processor returned or raised. *)
Theorem process_then_up (py_process csl_process cmd_process : string → method unit)
    (indicator data : string) self :
  quiet py_process → quiet csl_process → quiet cmd_process →
  data ≠ "" →
  let self' :=
    (__process py_process csl_process cmd_process indicator data self).1 in
  _inputlines self' = _inputlines self ++ [data] ∧
  _callBack true self' = (set_entry data (set_callbackindex 0 self'), Ok ()).
Proof.
  intros Hpy Hcsl Hcmd Hdata.
  set (s1 := set_entry "" (set_inputlines (_inputlines self ++ [data])
                             (set_callbackindex (-1) self))).
  set (rest :=
    _ConsoleOutput (Some " ") white "add" false;;
    _ConsoleOutput (Some (indicator +:+ data)) white "add" false;;
    if String.eqb indicator "pyt> " then py_process data
    else if String.eqb indicator "csl> " then csl_process data
    else if String.eqb indicator "os$> " then cmd_process data
    else mret ()).
  assert (__process py_process csl_process cmd_process indicator data self = rest s1)
    as ->.
  { unfold __process. rewrite (len_nonempty _ Hdata).
    erewrite bind_ok; [|reflexivity]. rewrite bind_attr.
    erewrite bind_ok; [|reflexivity]. erewrite bind_ok; [|reflexivity].
    reflexivity. }
  assert (∀ {X} (π : Console → X),
            (∀ l s, π (set_visible_lines l s) = π s) →
            (∀ l s, π (set_savedlines l s) = π s) →
            (∀ l s, π (set_stdout l s) = π s) →
            (∀ d, keeps π (py_process d)) → (∀ d, keeps π (csl_process d)) →
            (∀ d, keeps π (cmd_process d)) →
            π (rest s1).1 = π s1) as Hkeeps.
  { intros X π H1 H2 H3 H4 H5 H6. unfold rest.
    apply (keeps_bind π); [by apply keeps_ConsoleOutput|]. intros _.
    apply (keeps_bind π); [by apply keeps_ConsoleOutput|]. intros _.
    destruct (String.eqb indicator "pyt> "); [apply H4|].
    destruct (String.eqb indicator "csl> "); [apply H5|].
    destruct (String.eqb indicator "os$> "); [apply H6|apply keeps_ret]. }
  assert (_inputlines (rest s1).1 = _inputlines self ++ [data]) as Hin.
  { rewrite (Hkeeps _ _inputlines); try done.
    - intros d. apply Hpy. - intros d. apply Hcsl. - intros d. apply Hcmd. }
  assert (_callbackindex (rest s1).1 = -1) as Hidx.
  { rewrite (Hkeeps _ _callbackindex); try done.
    - intros d. apply Hpy. - intros d. apply Hcsl. - intros d. apply Hcmd. }
  cbn zeta. split; [exact Hin|].
  apply (callBack_up_step _ 0 data); [by rewrite Hidx|].
  rewrite Hin, reverse_app. reflexivity.
Qed.

Lemma echo_quiet : quiet echo.
Proof.
  intros data. split.
  - by apply (keeps_ConsoleOutput _inputlines).
  - by apply (keeps_ConsoleOutput _callbackindex).
Defined.

Lemma process_then_up_witness :
  (quiet echo ∧ "help" ≠ "") ∧
  let self' := (__process echo echo echo "csl> " "help" (created 10 3)).1 in
  _inputlines self' = _inputlines (created 10 3) ++ ["help"] ∧
  _callBack true self' = (set_entry "help" (set_callbackindex 0 self'), Ok ()).
Proof.
  split; [split; [exact echo_quiet|discriminate]|].
  apply (process_then_up echo echo echo "csl> " "help" (created 10 3));
    [exact echo_quiet|exact echo_quiet|exact echo_quiet|discriminate].
Defined.

(** ** The list of commands *)

Section helping.
Implicit Types (self : Console) (commands : list string).

(** The loop of [help] over the commands. *)
Lemma help_loop_run commands self :
  0 < _maxsize self → 0 < _maxlines self →
  Forall (λ i, Py.count keyword i = 0%nat) commands →
  ∃ lines,
    for_ commands (λ i, _ConsoleOutput (Some ("- " +:+ i)) white "add" false) self =
      (set_visible_lines lines
         (set_savedlines
            (_savedlines self ++ map (λ i, ("- " +:+ i, white)) commands) self), Ok ()).
Proof.
  intros Hm Hl Hclean. revert self Hm Hl.
  induction Hclean as [|i commands Hi Hclean IH]; intros self Hm Hl.
  - exists (_visible_lines self). simpl. rewrite app_nil_r. by destruct self.
  - destruct (ConsoleOutput_add_plain self ("- " +:+ i) white Hm Hl)
      as (lines1 & Hrun1 & _).
    rewrite split_none in Hrun1 by (by rewrite count_append, Hi).
    cbn [for_]. erewrite bind_ok; [|exact Hrun1].
    match goal with |- context [for_ _ _ ?s] =>
      destruct (IH s) as (lines & Hrun); [exact Hm|exact Hl|] end.
    exists lines. rewrite Hrun. simpl.
    unfold set_visible_lines, set_savedlines. simpl.
    by rewrite <- app_assoc.
Qed.

End helping.

(** X19: for a positive width, a positive number of rows and command
    names without newline, [help] returns after appending to the saved
    lines, in this order, the heading in its own colour, one line
    ["- "] followed by the name for every command, the line [" "] and
    the hint about [usage], all three in white; the lines it leaves on
    screen are those that [redistribute] builds from the saved
    lines. *)
Theorem help_lists_commands (commands : list string) self :
  0 < _maxsize self → 0 < _maxlines self →
  Forall (λ i, Py.count keyword i = 0%nat) commands →
  ∃ lines,
    let saved :=
      _savedlines self
      ++ ("List of available commands: ", cyan)
      :: map (λ i, ("- " +:+ i, white)) commands
      ++ [(" ", white);
          ("Use usage(command) for more details on a specific command", white)] in
    help commands self = (set_visible_lines lines (set_savedlines saved self), Ok ()) ∧
    redistribute saved (_maxsize self) (_maxlines self) lines = Ok lines.
Proof.
  intros Hm Hl Hclean. unfold help.
  destruct (ConsoleOutput_add_plain self "List of available commands: " cyan Hm Hl)
    as (lines1 & Hrun1 & _).
  erewrite bind_ok; [|exact Hrun1].
  match goal with |- context [(for_ _ _ ≫= _) ?s] =>
    destruct (help_loop_run commands s) as (lines2 & Hrun2);
      [exact Hm|exact Hl|exact Hclean|] end.
  erewrite bind_ok; [|exact Hrun2].
  match goal with |- context [(_ConsoleOutput (Some " ") _ _ _ ≫= _) ?s] =>
    destruct (ConsoleOutput_add_plain s " " white) as (lines3 & Hrun3 & _);
      [exact Hm|exact Hl|] end.
  erewrite bind_ok; [|exact Hrun3].
  match goal with |- context [_ConsoleOutput (Some ?t) _ _ _ ?s] =>
    destruct (ConsoleOutput_add_plain s t white) as (lines4 & Hrun4 & Hred4);
      [exact Hm|exact Hl|] end.
  exists lines4. cbn zeta. rewrite Hrun4. clear Hrun1 Hrun2 Hrun3 Hrun4.
  cbn [_savedlines _maxsize _maxlines set_visible_lines set_savedlines] in Hred4.
  cbn [_savedlines _maxsize _maxlines set_visible_lines set_savedlines].
  change (Py.split keyword "List of available commands: ")
    with ["List of available commands: "] in *.
  change (Py.split keyword " ") with [" "] in *.
  change (Py.split keyword "Use usage(command) for more details on a specific command")
    with ["Use usage(command) for more details on a specific command"] in *.
  cbn [map] in *.
  rewrite <- !app_assoc in Hred4. rewrite <- !app_assoc. cbn [app] in *.
  split; [reflexivity|]. apply Hred4. by repeat constructor.
Qed.

Lemma help_lists_commands_witness :
  (0 < _maxsize (created 40 3) ∧ 0 < _maxlines (created 40 3) ∧
   Forall (λ i, Py.count keyword i = 0%nat) ["toggleImage"; "usage"]) ∧
  ∃ lines,
    let saved :=
      _savedlines (created 40 3)
      ++ ("List of available commands: ", cyan)
      :: map (λ i, ("- " +:+ i, white)) ["toggleImage"; "usage"]
      ++ [(" ", white);
          ("Use usage(command) for more details on a specific command", white)] in
    help ["toggleImage"; "usage"] (created 40 3)
      = (set_visible_lines lines (set_savedlines saved (created 40 3)), Ok ()) ∧
    redistribute saved (_maxsize (created 40 3)) (_maxlines (created 40 3)) lines
      = Ok lines.
Proof.
  split.
  - split; [reflexivity|]. split; [reflexivity|]. by repeat constructor.
  - apply (help_lists_commands ["toggleImage"; "usage"] (created 40 3));
      [reflexivity|reflexivity|by repeat constructor].
Defined.
